(** * plugin-translator: language inference chain and translator

    A shallow embedding of [src/constants.ts], [src/utils/languageDetection.ts],
    [src/utils/translation.ts] and [src/actions/translateAction.ts], followed
    by the properties of the keyword matcher, of the inference chain, of the
    translator and of the action handler.

    Strings are [string]s holding the UTF-8 encoding of the JavaScript
    string.  UTF-8 is self-synchronising, so a well-formed needle occurs in a
    well-formed haystack byte-wise exactly when it occurs code point-wise,
    which is what [String.prototype.includes] decides on well-formed
    UTF-16. *)

From Stdlib Require Import String Ascii List Bool Arith ZArith Lia.
From Stdlib Require QArith.
Import ListNotations.
Open Scope list_scope.
Open Scope string_scope.

(** ** JavaScript strings *)

Module JsString.

(** [s.startsWith(k)] *)
Fixpoint startsWith (s k : string) {struct k} : bool :=
  match k with
  | EmptyString => true
  | String ck k' =>
      match s with
      | EmptyString => false
      | String cs s' => Ascii.eqb cs ck && startsWith s' k'
      end
  end.

(** [s.includes(k)]: [k] starts at some position of [s]. *)
Fixpoint includes (s k : string) : bool :=
  match s with
  | EmptyString => startsWith EmptyString k
  | String _ s' => startsWith s k || includes s' k
  end.

(** JavaScript truthiness of a string: every string but the empty one. *)
Definition truthy (s : string) : bool :=
  match s with
  | EmptyString => false
  | String _ _ => true
  end.

(** The builtins whose result depends on the Unicode tables of the engine:
    [String.prototype.toLowerCase] and [String.prototype.trim].  The
    program is modelled over any implementation of them. *)
Class Builtins : Type := {
  toLowerCase : string -> string;
  trim : string -> string
}.

End JsString.
Export JsString.

(** ** An executable instance of the builtins

    Exact on every string whose cased letters and whose leading and trailing
    white space are ASCII; the kana, kanji and hangul of the keyword table
    have no case, and their UTF-8 bytes are all above 127. *)

Module AsciiBuiltins.

Definition lowerChar (c : ascii) : ascii :=
  let n := nat_of_ascii c in
  if ((65 <=? n) && (n <=? 90))%nat then ascii_of_nat (n + 32) else c.

Fixpoint asciiToLowerCase (s : string) : string :=
  match s with
  | EmptyString => EmptyString
  | String c s' => String (lowerChar c) (asciiToLowerCase s')
  end.

(** TAB, LF, VT, FF, CR and SPACE. *)
Definition isWhiteSpace (c : ascii) : bool :=
  let n := nat_of_ascii c in
  (((9 <=? n) && (n <=? 13)) || (n =? 32))%nat.

Fixpoint trimStart (s : string) : string :=
  match s with
  | EmptyString => EmptyString
  | String c s' => if isWhiteSpace c then trimStart s' else s
  end.

Fixpoint trimEnd (s : string) : string :=
  match s with
  | EmptyString => EmptyString
  | String c s' =>
      match trimEnd s' with
      | EmptyString => if isWhiteSpace c then EmptyString else String c EmptyString
      | t => String c t
      end
  end.

Definition asciiTrim (s : string) : string := trimEnd (trimStart s).

#[export] Instance builtins : Builtins :=
  {| toLowerCase := asciiToLowerCase; trim := asciiTrim |}.

End AsciiBuiltins.

(** ** constants.ts *)

Module Constants.

(** [LANGUAGE_KEYWORDS]: an object literal; its keys are not array
    indices, so [Object.entries] and [Object.keys] enumerate them in the
    order of the literal.  The association list keeps that order. *)
Definition LANGUAGE_KEYWORDS : list (string * list string) :=
  [ ("japanese",
      [ "日本語"; "にほんご"; "和訳"; "nihongo"; "japanese"; "japan";
        "일본어"; "일본"; "니혼고" ]);
    ("english",
      [ "英語"; "えいご"; "英訳"; "eigo"; "english"; "eng";
        "영어"; "잉글리시"; "영국어" ]);
    ("korean",
      [ "韓国語"; "かんこくご"; "ハングル"; "kankokugo"; "korean"; "korea";
        "hangul"; "한국어"; "한글"; "조선말" ]) ].

Definition DEFAULT_LANGUAGE : string := "english".

(** [Object.keys(LANGUAGE_KEYWORDS)] *)
Definition getSupportedLanguages : list string :=
  map fst LANGUAGE_KEYWORDS.

End Constants.

(** ** Asynchronous computations

    An [async] function is a computation that reads the behaviour of the
    text-generation service, updates a record of what the process did, and
    either returns a value or throws.  [await] is sequencing: the program has
    a single thread of control and never starts two promises at once. *)

Module Effects.

(** A thrown JavaScript [Error]; [Error m] is [new Error(m)]. *)
Record JsError : Type := Error { message : string }.

(** The [TypeError] of reading property [prop] of [undefined] or [null]
    (V8's wording). *)
Definition TypeError (receiver prop : string) : JsError :=
  Error ("Cannot read properties of " ++ receiver ++ " (reading '" ++ prop ++ "')").

Inductive Completion (A : Type) : Type :=
| Returned (a : A)
| Thrown (e : JsError).
Arguments Returned {A} a.
Arguments Thrown {A} e.

(** The request and response shapes of [chat.completions.create]. *)
Record ChatMessage : Type := { role : string; content : string }.

Record Request : Type := {
  model : string;
  messages : list ChatMessage;
  temperature : QArith_base.Q
}.

(** [message.content] is [string | null] in the service's reply. *)
Record Choice : Type := { message_content : option string }.

Record Response : Type := { choices : list Choice }.

(** One use of a client: [new OpenAI({ apiKey })] followed by
    [chat.completions.create(request)]. *)
Record Call : Type := { call_apiKey : string; call_request : Request }.

Inductive LogLevel : Type := INFO | ERROR.

Record LogEntry : Type := {
  level : LogLevel;
  label : string;
  detail : option JsError
}.

(** What the process has done so far: the calls issued to the service,
    the lines written to [elizaLogger] and the texts handed to a
    recording callback, each oldest first. *)
Record World : Type := {
  calls : list Call;
  logs : list LogEntry;
  replies : list string
}.

(** The service: what a call completes with, given the calls issued before
    it.  Network errors, rejected credentials and a constructor that throws
    are all [Thrown]. *)
Definition Api : Type := list Call -> Call -> Completion Response.

Definition Async (A : Type) : Type := Api -> World -> Completion A * World.

Definition ret {A} (a : A) : Async A := fun _ w => (Returned a, w).

Definition throw {A} (e : JsError) : Async A := fun _ w => (Thrown e, w).

Definition bind {A B} (c : Async A) (k : A -> Async B) : Async B :=
  fun api w =>
    match c api w with
    | (Returned a, w') => k a api w'
    | (Thrown e, w') => (Thrown e, w')
    end.

(** [try { body } catch (error) { handler }] *)
Definition tryCatch {A} (body : Async A) (handler : JsError -> Async A) : Async A :=
  fun api w =>
    match body api w with
    | (Returned a, w') => (Returned a, w')
    | (Thrown e, w') => handler e api w'
    end.

Definition addCall (w : World) (call : Call) : World :=
  {| calls := calls w ++ [call]; logs := logs w; replies := replies w |}.

Definition addLog (w : World) (entry : LogEntry) : World :=
  {| calls := calls w; logs := logs w ++ [entry]; replies := replies w |}.

Definition addReply (w : World) (reply : string) : World :=
  {| calls := calls w; logs := logs w; replies := replies w ++ [reply] |}.

(** [new OpenAI({ apiKey }).chat.completions.create(request)] *)
Definition chat_completions_create (apiKey : string) (request : Request) : Async Response :=
  fun api w =>
    let call := {| call_apiKey := apiKey; call_request := request |} in
    (api (calls w) call, addCall w call).

Definition writeLog (entry : LogEntry) : Async unit :=
  fun _ w => (Returned tt, addLog w entry).

(** The default value ["gpt-4o-mini"] of the optional parameter [model]. *)
Definition modelOrDefault (model : option string) : string :=
  match model with
  | Some m => m
  | None => "gpt-4o-mini"
  end.

(** [elizaLogger.error(label, error)] *)
Definition elizaLogger_error (label : string) (error : JsError) : Async unit :=
  writeLog {| level := ERROR; label := label; detail := Some error |}.

(** [elizaLogger.info(line)] *)
Definition elizaLogger_info (line : string) : Async unit :=
  writeLog {| level := INFO; label := line; detail := None |}.

(** [v || fallback] and [if (v)] on a [string | null | undefined]. *)
Definition orElse (v : option string) (fallback : string) : string :=
  match v with
  | Some s => if truthy s then s else fallback
  | None => fallback
  end.

Definition ifTruthy {X} (v : option string) (yes : string -> X) (no : X) : X :=
  match v with
  | Some s => if truthy s then yes s else no
  | None => no
  end.

(** [response.choices[0].message.content], the receiver of [.trim()]: an
    absent first choice and a [null] content throw. *)
Definition firstContent (response : Response) : Async string :=
  match choices response with
  | [] => throw (TypeError "undefined" "message")
  | choice :: _ =>
      match message_content choice with
      | None => throw (TypeError "null" "trim")
      | Some content => ret content
      end
  end.

Definition emptyWorld : World := {| calls := []; logs := []; replies := [] |}.

End Effects.
Export Effects.

Declare Scope async_scope.
Delimit Scope async_scope with async.
Notation "x <- c ;; k" := (bind c (fun x => k))
  (at level 61, c at next level, right associativity) : async_scope.
Notation "c ;;; k" := (bind c (fun _ => k))
  (at level 61, right associativity) : async_scope.
Open Scope async_scope.

(** ** utils/languageDetection.ts *)

Module LanguageDetection.
Import Constants.

Section WithBuiltins.
Context `{Builtins}.

(** The inner loop: [for (const keyword of keywords)] with its early
    [return language]; [None] when the loop runs to its end. *)
Fixpoint scanKeywords (lowerText language : string) (keywords : list string)
  : option string :=
  match keywords with
  | [] => None
  | keyword :: rest =>
      if includes lowerText (toLowerCase keyword)
      then Some language
      else scanKeywords lowerText language rest
  end.

(** The outer loop over [Object.entries(LANGUAGE_KEYWORDS)]. *)
Fixpoint scanEntries (lowerText : string) (entries : list (string * list string))
  : option string :=
  match entries with
  | [] => None
  | (language, keywords) :: rest =>
      match scanKeywords lowerText language keywords with
      | Some found => Some found
      | None => scanEntries lowerText rest
      end
  end.

Definition detectLanguageByKeywords (text : string) : option string :=
  let lowerText := toLowerCase text in
  scanEntries lowerText LANGUAGE_KEYWORDS.

Definition detectionPrompt : string :=
  "Detect the language of the user's message and respond with only 'japanese', 'english', or 'korean'.".

Definition detectionRequest (text model : string) : Request :=
  {| model := model;
     messages :=
       [ {| role := "system"; content := detectionPrompt |};
         {| role := "user"; content := text |} ];
     temperature := QArith_base.Qmake 3%Z 10%positive |}.

(** [model] is an optional parameter with default ["gpt-4o-mini"]. *)
Definition detectLanguageByPrompt (text apiKey : string) (model : option string)
  : Async (option string) :=
  let model := modelOrDefault model in
  tryCatch
    (response <- chat_completions_create apiKey (detectionRequest text model) ;;
     content <- firstContent response ;;
     let detectedLanguage := toLowerCase (trim content) in
     ret (Some detectedLanguage))
    (fun error =>
       elizaLogger_error "Prompt language detection error:" error ;;;
       ret None).

Definition detectLanguage (text apiKey : string) : Async string :=
  let keywordResult := detectLanguageByKeywords text in
  ifTruthy keywordResult
    (fun keywordResult => ret keywordResult)
    (promptResult <- detectLanguageByPrompt text apiKey None ;;
     ifTruthy promptResult
       (fun promptResult => ret promptResult)
       (ret DEFAULT_LANGUAGE)).

End WithBuiltins.

End LanguageDetection.

(** ** utils/translation.ts *)

Module Translation.

Definition LF : string := String (ascii_of_nat 10) EmptyString.

(** The template literal of the system message; its two line breaks are
    the ones of the source file. *)
Definition translationPrompt (targetLanguage : string) : string :=
  "You are a high-quality translator. Your task is to translate the given text to "
    ++ targetLanguage ++ "." ++ LF
    ++ "IMPORTANT: Preserve all Markdown formatting. DO NOT add ANY explanations or comments." ++ LF
    ++ "ONLY provide the direct translation of the text. No introductions, no questions, no additional text.".

Definition translationRequest (text targetLanguage model : string) : Request :=
  {| model := model;
     messages :=
       [ {| role := "system"; content := translationPrompt targetLanguage |};
         {| role := "user"; content := text |} ];
     temperature := QArith_base.Qmake 3%Z 10%positive |}.

Section WithBuiltins.
Context `{Builtins}.

(** [model] is an optional parameter with default ["gpt-4o-mini"]. *)
Definition translateText (text targetLanguage apiKey : string) (model : option string)
  : Async string :=
  let model := modelOrDefault model in
  tryCatch
    (response <- chat_completions_create apiKey
                   (translationRequest text targetLanguage model) ;;
     content <- firstContent response ;;
     ret (trim content))
    (fun error =>
       elizaLogger_error "Translation error:" error ;;;
       throw (Error ("Error occurred during translation: " ++ message error))).

End WithBuiltins.

End Translation.

(** ** actions/translateAction.ts *)

Module TranslateAction.

Record Content : Type := { text : option string }.

Record Memory : Type := { userId : string; content : option Content }.

Record State : Type := { recentMessagesData : list Memory }.

Record IAgentRuntime : Type := {
  agentId : string;
  getSetting : string -> option string;
  composeState : Memory -> Async State
}.

Definition HandlerCallback : Type := Content -> Async unit.

(** What [handler] resolves with: a boolean, or [undefined] when the
    body runs to its end without a [return]. *)
Inductive HandlerResult : Type :=
| Bool (b : bool)
| Undefined.

(** [await callback?.({ text })] *)
Definition callIfPresent (callback : option HandlerCallback) (reply : string)
  : Async unit :=
  match callback with
  | Some f => f {| text := Some reply |}
  | None => ret tt
  end.

(** [lastAgentMessage.content.text] when the three guards
    [!lastAgentMessage || !lastAgentMessage.content ||
     !lastAgentMessage.content.text] all pass. *)
Definition guardedText (lastAgentMessage : option Memory) : option string :=
  match lastAgentMessage with
  | None => None
  | Some m =>
      match content m with
      | None => None
      | Some c => ifTruthy (text c) (fun t => Some t) None
      end
  end.

(** [if (!state) { state = await runtime.composeState(message); }] *)
Definition resolveState (runtime : IAgentRuntime) (message : Memory)
    (state : option State) : Async State :=
  match state with
  | Some s => ret s
  | None => composeState runtime message
  end.

(** [previousMessages.slice().reverse().find(msg => msg.userId === runtime.agentId)] *)
Definition lastMessageOf (agent : string) (previousMessages : list Memory)
  : option Memory :=
  find (fun msg => String.eqb (userId msg) agent) (rev previousMessages).

(** A callback that records the text it is given. *)
Definition recordReply : HandlerCallback :=
  fun c _ w => (Returned tt, addReply w (orElse (text c) "")).

Section WithImports.
(** The two imports of the module, [detectLanguage] and [translateText]
    (the latter called with three arguments). *)
Variable detectLanguage : string -> string -> Async string.
Variable translateText : string -> string -> string -> Async string.

Definition handlerWith {Options : Type}
    (runtime : IAgentRuntime) (message : Memory) (state : option State)
    (_options : Options) (callback : option HandlerCallback)
  : Async HandlerResult :=
  tryCatch
    (let apiKey := getSetting runtime "OPENAI_API_KEY" in
     ifTruthy apiKey
       (fun apiKey =>
          state <- resolveState runtime message state ;;
          let previousMessages := recentMessagesData state in
          if Nat.ltb (length previousMessages) 2 then
            callIfPresent callback "No previous message to translate" ;;;
            ret (Bool false)
          else
            let lastAgentMessage :=
              lastMessageOf (agentId runtime) previousMessages in
            match guardedText lastAgentMessage with
            | None =>
                callIfPresent callback "No agent message found to translate" ;;;
                ret (Bool false)
            | Some textToTranslate =>
                messageContent <-
                  match content message with
                  | Some c => ret c
                  | None => throw (TypeError "undefined" "text")
                  end ;;
                let userInstruction := orElse (text messageContent) "" in
                detected <-
                  tryCatch
                    (targetLanguage <- detectLanguage userInstruction apiKey ;;
                     elizaLogger_info ("Detected target language: " ++ targetLanguage) ;;;
                     ret (inl targetLanguage))
                    (fun error =>
                       elizaLogger_error "Language detection error:" error ;;;
                       callIfPresent callback "Could not detect target language" ;;;
                       ret (inr (Bool false))) ;;
                match detected with
                | inr returned => ret returned
                | inl targetLanguage =>
                    translatedText <- translateText textToTranslate targetLanguage apiKey ;;
                    callIfPresent callback translatedText ;;;
                    ret Undefined
                end
            end)
       (callIfPresent callback "OpenAI API key is not configured" ;;;
        ret (Bool false)))
    (fun error =>
       elizaLogger_error "Translation action error:" error ;;;
       callIfPresent callback ("Error during translation: " ++ Effects.message error) ;;;
       ret (Bool false)).

End WithImports.

Section WithBuiltins.
Context `{Builtins}.

Definition handler {Options : Type}
    (runtime : IAgentRuntime) (message : Memory) (state : option State)
    (_options : Options) (callback : option HandlerCallback)
  : Async HandlerResult :=
  handlerWith LanguageDetection.detectLanguage
              (fun text targetLanguage apiKey =>
                 Translation.translateText text targetLanguage apiKey None)
              runtime message state _options callback.

End WithBuiltins.

End TranslateAction.

(** ** Fixtures of the test suite *)

Module Fixtures.
Import TranslateAction.

(** [mockState] of [translateAction.test.ts]. *)
Definition mockState : State :=
  {| recentMessagesData :=
       [ {| userId := "user-id";
            content := Some {| text := Some "User message" |} |};
         {| userId := "mock-agent-id";
            content := Some {| text := Some "Agent message to translate" |} |} ] |}.

(** [mockRuntime]: the key is configured, the state composes. *)
Definition mockRuntime : IAgentRuntime :=
  {| agentId := "mock-agent-id";
     getSetting := fun _ => Some "mock-api-key";
     composeState := fun _ => ret mockState |}.

(** A user instruction that names no language. *)
Definition mockMessage : Memory :=
  {| userId := "user-id";
     content := Some {| text := Some "翻訳してください" |} |}.

(** A service answering its n-th call with the n-th completion of a
    script, as a chain of [mockResolvedValueOnce] and
    [mockRejectedValueOnce] does. *)
Definition scripted (script : list (Completion Response)) : Api :=
  fun history _ =>
    nth (length history) script (Thrown (Error "no scripted completion")).

End Fixtures.

(** ** Vocabulary of the statements *)

Module TableOrder.
Import Constants.

(** Position of [x] in [l]; [length l] when [x] is not in it. *)
Fixpoint position (x : string) (l : list string) : nat :=
  match l with
  | [] => 0
  | y :: rest => if String.eqb x y then 0 else S (position x rest)
  end.

(** Place of a language in the definition order of the table. *)
Definition rank (language : string) : nat :=
  position language getSupportedLanguages.

(** The languages defined before [language]. *)
Definition languagesBefore (language : string) : list string :=
  firstn (rank language) getSupportedLanguages.

(** [LANGUAGE_KEYWORDS[language]], empty for a language not in the table. *)
Fixpoint lookupKeywords (language : string) (entries : list (string * list string))
  : list string :=
  match entries with
  | [] => []
  | (l, keywords) :: rest =>
      if String.eqb language l then keywords else lookupKeywords language rest
  end.

Definition keywordsOf (language : string) : list string :=
  lookupKeywords language LANGUAGE_KEYWORDS.

Section WithBuiltins.
Context `{Builtins}.

(** Some keyword of the list, lower-cased, occurs in [lowerText]. *)
Definition anyIncluded (lowerText : string) (keywords : list string) : bool :=
  existsb (fun keyword => includes lowerText (toLowerCase keyword)) keywords.

(** [keyword] occurs in [text], letter case ignored: the test of the
    matcher, lower-cased text against lower-cased keyword. *)
Definition occursIn (text keyword : string) : bool :=
  includes (toLowerCase text) (toLowerCase keyword).

(** Some trigger substring of [language] occurs in [text]. *)
Definition triggered (text language : string) : bool :=
  existsb (occursIn text) (keywordsOf language).

End WithBuiltins.

(** The call the classifier issues for [text]. *)
Definition classifierCall (text apiKey model : string) : Call :=
  {| call_apiKey := apiKey;
     call_request := LanguageDetection.detectionRequest text model |}.

(** The call the translator issues for [text]. *)
Definition translatorCall (text targetLanguage apiKey model : string) : Call :=
  {| call_apiKey := apiKey;
     call_request := Translation.translationRequest text targetLanguage model |}.

(** A reply whose first choice carries [content]. *)
Definition replyWith (content : string) (others : list Choice) : Response :=
  {| choices := {| message_content := Some content |} :: others |}.

(** A service that completes every call the same way. *)
Definition always (outcome : Completion Response) : Api := fun _ _ => outcome.

(** A callback that returns, whatever it is given and whenever it is
    called. *)
Definition neverThrows (callback : option TranslateAction.HandlerCallback) : Prop :=
  forall f, callback = Some f ->
  forall reply api w, exists w', f reply api w = (Returned tt, w').

(** A callback that issues no call to the service. *)
Definition keepsCalls (callback : option TranslateAction.HandlerCallback) : Prop :=
  forall f, callback = Some f ->
  forall reply api w, calls (snd (f reply api w)) = calls w.

End TableOrder.

(** ** constants.ts, language codes *)

Module LanguageCodes.
Import Constants.

(** [LANGUAGE_CODES], in the order of the literal. *)
Definition LANGUAGE_CODES : list (string * string) :=
  [ ("japanese", "ja"); ("english", "en"); ("korean", "ko") ].

(** What a property read yields besides [undefined]: the string stored
    under an own key, or a member found on [Object.prototype] (a function
    or an object, never a string). *)
Inductive PropertyValue : Type :=
| Str (s : string)
| Inherited (member : string).

Fixpoint ownProperty (key : string) (object : list (string * string))
  : option string :=
  match object with
  | [] => None
  | (k, v) :: rest => if String.eqb key k then Some v else ownProperty key rest
  end.

(** The member names of [Object.prototype] in ECMAScript, Annex B
    included. *)
Definition objectPrototypeMembers : list string :=
  [ "constructor"; "hasOwnProperty"; "isPrototypeOf"; "propertyIsEnumerable";
    "toLocaleString"; "toString"; "valueOf"; "__proto__";
    "__defineGetter__"; "__defineSetter__";
    "__lookupGetter__"; "__lookupSetter__" ].

Definition standardPrototype (key : string) : bool :=
  existsb (String.eqb key) objectPrototypeMembers.

Section WithPrototype.
(** Whether [Object.prototype] has a member of that name; own keys shadow
    it. *)
Variable inherited : string -> bool.

(** [object[key]] on an object literal with string values. *)
Definition getProperty (object : list (string * string)) (key : string)
  : option PropertyValue :=
  match ownProperty key object with
  | Some v => Some (Str v)
  | None => if inherited key then Some (Inherited key) else None
  end.

(** [LANGUAGE_CODES[language] || "en"]; an inherited member is truthy. *)
Definition getLanguageCode (language : string) : PropertyValue :=
  match getProperty LANGUAGE_CODES language with
  | Some (Str code) => if truthy code then Str code else Str "en"
  | Some (Inherited member) => Inherited member
  | None => Str "en"
  end.

End WithPrototype.

End LanguageCodes.

(** ** What a run leaves behind *)

Module Observations.
Import TranslateAction.

(** The lines the program writes to [elizaLogger]. *)
Definition promptErrorLine (e : JsError) : LogEntry :=
  {| level := ERROR; label := "Prompt language detection error:"; detail := Some e |}.

Definition translationErrorLine (e : JsError) : LogEntry :=
  {| level := ERROR; label := "Translation error:"; detail := Some e |}.

Definition actionErrorLine (e : JsError) : LogEntry :=
  {| level := ERROR; label := "Translation action error:"; detail := Some e |}.

Definition detectedLine (targetLanguage : string) : LogEntry :=
  {| level := INFO;
     label := "Detected target language: " ++ targetLanguage;
     detail := None |}.

(** The text of a message, when it has a truthy one. *)
Definition truthyText (m : Memory) : option string :=
  match content m with
  | None => None
  | Some c => ifTruthy (text c) (fun t => Some t) None
  end.

(** No message of the list was written by [agent]. *)
Definition noneFrom (agent : string) (messages : list Memory) : Prop :=
  forall m, In m messages -> userId m <> agent.

(** A computation that leaves the recorded replies as they are. *)
Definition keepsReplies {A : Type} (c : Async A) : Prop :=
  forall api w, replies (snd (c api w)) = replies w.

(** Every key of the first list is a key of the second, in the same
    order. *)
Definition sameKeys {A B : Type} (t1 : list (string * A)) (t2 : list (string * B)) : Prop :=
  map fst t1 = map fst t2.

End Observations.

(** * Properties *)

(** ** Substring search *)

Module JsStringFacts.

Lemma startsWith_app (k b : string) : startsWith (k ++ b) k = true.
Proof.
  induction k as [|c k IH]; simpl; [reflexivity|].
  now rewrite Ascii.eqb_refl, IH.
Qed.


Lemma startsWith_includes (s k : string) :
  startsWith s k = true -> includes s k = true.
Proof.
  destruct s as [|c s]; simpl; intros ->; reflexivity.
Qed.

Lemma includes_app (a k b : string) : includes (a ++ k ++ b) k = true.
Proof.
  induction a as [|c a IH].
  - change (includes (k ++ b) k = true).
    apply startsWith_includes. apply startsWith_app.
  - simpl. rewrite IH. apply orb_true_r.
Qed.

Lemma includes_suffix (a k : string) : includes (a ++ k) k = true.
Proof.
  induction a as [|c a IH].
  - change (includes k k = true). apply startsWith_includes.
    replace k with (k ++ "") at 1; [apply startsWith_app|].
    clear. induction k as [|c k IH]; simpl; [reflexivity | now rewrite IH].
  - simpl. rewrite IH. apply orb_true_r.
Qed.



Lemma asciiToLowerCase_app (a b : string) :
  AsciiBuiltins.asciiToLowerCase (a ++ b) =
  AsciiBuiltins.asciiToLowerCase a ++ AsciiBuiltins.asciiToLowerCase b.
Proof.
  induction a as [|c a IH]; simpl; [reflexivity|]. now rewrite IH.
Qed.

(** With the byte-wise lower-casing, a text containing any re-casing [k']
    of a keyword [k] contains [k] in the sense of the matcher. *)
Lemma recased_occurs (a k' b k : string) :
  AsciiBuiltins.asciiToLowerCase k' = AsciiBuiltins.asciiToLowerCase k ->
  @TableOrder.occursIn AsciiBuiltins.builtins (a ++ k' ++ b) k = true.
Proof.
  intros Hk. unfold TableOrder.occursIn; simpl.
  rewrite !asciiToLowerCase_app, Hk. apply includes_app.
Qed.

End JsStringFacts.

(** ** The two loops of the keyword matcher *)

Module ScanFacts.
Import Constants LanguageDetection TableOrder.

Section Scan.
Context `{Builtins}.
Variable lowerText : string.

Lemma scanKeywords_existsb (language : string) (keywords : list string) :
  scanKeywords lowerText language keywords =
  if anyIncluded lowerText keywords then Some language else None.
Proof.
  unfold anyIncluded. induction keywords as [|k ks IH]; simpl; [reflexivity|].
  destruct (includes lowerText (toLowerCase k)); simpl; [reflexivity | exact IH].
Qed.

Lemma lookupKeywords_fresh (l language : string) (ks : list string)
    (rest : list (string * list string)) :
  In language (map fst rest) -> ~ In l (map fst rest) ->
  lookupKeywords language ((l, ks) :: rest) = lookupKeywords language rest.
Proof.
  intros Hin Hl. simpl.
  destruct (String.eqb_spec language l) as [->|_]; [contradiction | reflexivity].
Qed.

Lemma existsb_agree (f g : string -> bool) (l : list string) :
  (forall x, In x l -> f x = g x) -> existsb f l = existsb g l.
Proof.
  induction l as [|y l IH]; simpl; intros Hfg; [reflexivity|].
  rewrite (Hfg y), IH; auto.
Qed.

Lemma firstn_In (n : nat) (l : list string) (x : string) :
  In x (firstn n l) -> In x l.
Proof.
  revert n; induction l as [|y l IH]; intros [|n]; simpl; try tauto.
  intros [->|Hx]; [now left | right; eauto].
Qed.

(** What a successful scan tells: the language found is a key, one of
    its keywords occurs, and no keyword of an earlier key does. *)
Lemma scanEntries_sound (entries : list (string * list string)) (language : string) :
  NoDup (map fst entries) ->
  scanEntries lowerText entries = Some language ->
  In language (map fst entries) /\
  anyIncluded lowerText (lookupKeywords language entries) = true /\
  existsb (fun l => anyIncluded lowerText (lookupKeywords l entries))
          (firstn (position language (map fst entries)) (map fst entries)) = false.
Proof.
  induction entries as [|[l ks] rest IH]; intros Hnd Hscan; [discriminate|].
  simpl in Hscan. rewrite scanKeywords_existsb in Hscan.
  inversion Hnd as [|? ? Hl Hnd']; subst.
  destruct (anyIncluded lowerText ks) eqn:Hks.
  - injection Hscan as <-. cbn [map fst position lookupKeywords].
    rewrite String.eqb_refl. cbn. auto.
  - destruct (IH Hnd' Hscan) as (Hin & Hhit & Hbefore).
    assert (Hne : String.eqb language l = false).
    { apply String.eqb_neq. intros ->. contradiction. }
    cbn [map fst position]. rewrite Hne. cbn [firstn existsb].
    repeat split.
    + now right.
    + now rewrite lookupKeywords_fresh.
    + replace (lookupKeywords l ((l, ks) :: rest)) with ks
        by (simpl; now rewrite String.eqb_refl).
      rewrite Hks. cbn [orb]. rewrite <- Hbefore. apply existsb_agree.
      intros l' Hl'. apply firstn_In in Hl'.
      now rewrite lookupKeywords_fresh.
Qed.

(** The converse: the first key one of whose keywords occurs is
    returned. *)
Lemma scanEntries_complete (entries : list (string * list string)) (language : string) :
  NoDup (map fst entries) ->
  In language (map fst entries) ->
  anyIncluded lowerText (lookupKeywords language entries) = true ->
  existsb (fun l => anyIncluded lowerText (lookupKeywords l entries))
          (firstn (position language (map fst entries)) (map fst entries)) = false ->
  scanEntries lowerText entries = Some language.
Proof.
  induction entries as [|[l ks] rest IH]; intros Hnd Hin Hhit Hbefore; [contradiction|].
  inversion Hnd as [|? ? Hl Hnd']; subst.
  simpl. rewrite scanKeywords_existsb.
  cbn [map fst position lookupKeywords] in *.
  destruct (String.eqb_spec language l) as [->|Hne].
  - now rewrite Hhit.
  - destruct Hin as [Heq|Hin]; [congruence|].
    cbn [firstn existsb] in Hbefore.
    apply orb_false_iff in Hbefore as [Hks Hbefore].
    rewrite String.eqb_refl in Hks.
    rewrite Hks. apply IH; auto.
    rewrite <- Hbefore. apply existsb_agree.
    intros l' Hl'. apply firstn_In in Hl'.
    f_equal. symmetry. now apply (lookupKeywords_fresh l l' ks rest).
Qed.

(** An unsuccessful scan: no keyword of any key occurs. *)
Lemma scanEntries_None (entries : list (string * list string)) :
  scanEntries lowerText entries = None <->
  forall l ks, In (l, ks) entries -> anyIncluded lowerText ks = false.
Proof.
  induction entries as [|[l ks] rest IH]; simpl.
  - split; [intros _ ? ? [] | reflexivity].
  - rewrite scanKeywords_existsb. destruct (anyIncluded lowerText ks) eqn:Hks.
    + split; [discriminate|]. intros Hall.
      rewrite (Hall l ks) in Hks; [discriminate | now left].
    + rewrite IH. split.
      * intros Hall l' ks' [Heq|Hin]; [now inversion Heq; subst | eauto].
      * intros Hall l' ks' Hin. apply (Hall l' ks'). now right.
Qed.

Lemma lookupKeywords_miss (entries : list (string * list string)) (language : string) :
  (forall l ks, In (l, ks) entries -> anyIncluded lowerText ks = false) ->
  anyIncluded lowerText (lookupKeywords language entries) = false.
Proof.
  induction entries as [|[l ks] rest IH]; simpl; intros Hall; [reflexivity|].
  destruct (String.eqb language l).
  - apply (Hall l ks). now left.
  - apply IH. intros l' ks' Hin. apply (Hall l' ks'). now right.
Qed.

Lemma lookupKeywords_In (entries : list (string * list string))
    (l : string) (ks : list string) :
  NoDup (map fst entries) -> In (l, ks) entries ->
  lookupKeywords l entries = ks.
Proof.
  induction entries as [|[l' ks'] rest IH]; simpl; intros Hnd Hin; [contradiction|].
  inversion Hnd as [|? ? Hl Hnd']; subst.
  destruct Hin as [Heq|Hin].
  - inversion Heq; subst. now rewrite String.eqb_refl.
  - destruct (String.eqb_spec l l') as [->|_]; [|auto].
    exfalso. apply Hl. apply (in_map fst) in Hin. exact Hin.
Qed.

End Scan.

Lemma keys_NoDup : NoDup getSupportedLanguages.
Proof.
  unfold getSupportedLanguages; simpl.
  repeat constructor; simpl; intuition discriminate.
Qed.

Lemma key_truthy (language : string) :
  In language getSupportedLanguages -> truthy language = true.
Proof.
  unfold getSupportedLanguages; simpl.
  intros [<-|[<-|[<-|[]]]]; reflexivity.
Qed.

Section Matcher.
Context `{Builtins}.

Lemma detected_is_earliest (text language : string) :
  detectLanguageByKeywords text = Some language ->
  In language getSupportedLanguages /\
  triggered text language = true /\
  existsb (triggered text) (languagesBefore language) = false.
Proof.
  intros Hd. apply (scanEntries_sound _ _ _ keys_NoDup Hd).
Qed.

Lemma earliest_is_detected (text language : string) :
  In language getSupportedLanguages ->
  triggered text language = true ->
  existsb (triggered text) (languagesBefore language) = false ->
  detectLanguageByKeywords text = Some language.
Proof.
  intros Hin Ht Hb. now apply (scanEntries_complete _ _ _ keys_NoDup).
Qed.

Lemma triggered_supported (text language : string) :
  triggered text language = true -> In language getSupportedLanguages.
Proof.
  unfold triggered, keywordsOf, getSupportedLanguages.
  induction LANGUAGE_KEYWORDS as [|[l ks] rest IH]; simpl; [discriminate|].
  destruct (String.eqb_spec language l) as [->|_]; [now left | right; auto].
Qed.

Lemma undetected_iff (text : string) :
  detectLanguageByKeywords text = None <->
  forall language, triggered text language = false.
Proof.
  unfold detectLanguageByKeywords. rewrite scanEntries_None. split.
  - intros Hall language. now apply lookupKeywords_miss.
  - intros Hall l ks Hin.
    rewrite <- (lookupKeywords_In _ _ _ keys_NoDup Hin). apply Hall.
Qed.

End Matcher.

End ScanFacts.

(** ** The keyword matcher *)

Module KeywordMatcher.
Import Constants LanguageDetection TableOrder ScanFacts.

Lemma position_firstn (x : string) (l : list string) (n : nat) :
  In x l -> position x l < n -> In x (firstn n l).
Proof.
  revert n; induction l as [|y l IH]; intros n Hin Hlt; [contradiction|].
  simpl in Hlt. destruct n as [|n]; [lia|]. simpl.
  destruct (String.eqb_spec x y) as [->|Hne]; [now left|].
  right. apply IH; [|lia]. destruct Hin; congruence.
Qed.

Lemma triggered_of_keyword `{Builtins} (text language keyword : string) :
  In keyword (keywordsOf language) -> occursIn text keyword = true ->
  triggered text language = true.
Proof.
  intros Hin Hocc. apply existsb_exists. now exists keyword.
Qed.

(** C1, as stated, fails: ["korea"] is registered under ["korean"] and
    occurs in ["korea japan"], yet the matcher answers ["japanese"],
    a trigger of the earlier language occurring too. *)
Lemma later_language_trigger_preempted :
  In "korea" (keywordsOf "korean") /\
  "korea japan" = "" ++ "korea" ++ " japan" /\
  @occursIn AsciiBuiltins.builtins "korea japan" "korea" = true /\
  @detectLanguageByKeywords AsciiBuiltins.builtins "korea japan" = Some "japanese" /\
  @detectLanguageByKeywords AsciiBuiltins.builtins "korea japan" <> Some "korean".
Proof.
  repeat split; try reflexivity.
  - simpl; tauto.
  - discriminate.
Qed.

(** C1, amended: for a language L of the table and a trigger substring K
    registered under L, the matcher returns L on every text in which K
    occurs (letter case ignored), provided no trigger substring of a
    language defined before L occurs in that text; for the first language
    of the table the proviso is empty. *)
Theorem trigger_returns_language_unless_preempted `{Builtins}
    (L K text : string) :
  In K (keywordsOf L) ->
  occursIn text K = true ->
  existsb (triggered text) (languagesBefore L) = false ->
  detectLanguageByKeywords text = Some L.
Proof.
  intros HK Hocc Hbefore.
  assert (Ht : triggered text L = true) by (eapply triggered_of_keyword; eauto).
  apply earliest_is_detected; auto.
  eapply triggered_supported; eauto.
Qed.

Lemma trigger_returns_language_witness :
  @detectLanguageByKeywords AsciiBuiltins.builtins
    "Translate this into KOREAN, please" = Some "korean".
Proof.
  apply (@trigger_returns_language_unless_preempted AsciiBuiltins.builtins
           "korean" "korea").
  - simpl; tauto.
  - reflexivity.
  - reflexivity.
Defined.

(** With the byte-wise lower-casing the occurrence may be literal: a text
    that contains a re-casing K' of a trigger K of L, anywhere, is detected
    as L unless a language defined earlier is triggered. *)
Corollary recased_trigger_detected (L K K' a b : string) :
  In K (keywordsOf L) ->
  AsciiBuiltins.asciiToLowerCase K' = AsciiBuiltins.asciiToLowerCase K ->
  existsb (@triggered AsciiBuiltins.builtins (a ++ K' ++ b)) (languagesBefore L) = false ->
  @detectLanguageByKeywords AsciiBuiltins.builtins (a ++ K' ++ b) = Some L.
Proof.
  intros HK Hcase Hbefore.
  assert (Ht : @triggered AsciiBuiltins.builtins (a ++ K' ++ b) L = true).
  { eapply triggered_of_keyword; [exact HK|]. now apply JsStringFacts.recased_occurs. }
  apply earliest_is_detected; auto.
  eapply triggered_supported; eauto.
Qed.

(** C2: when trigger substrings of two different languages occur in the
    input, the matcher returns the language that comes first in the
    definition order of the table among those having a trigger in the
    input, wherever the triggers stand in it; so it is at or before both
    languages, and never the later of the two. *)
Theorem earliest_language_wins `{Builtins} (text L1 L2 : string) :
  L1 <> L2 ->
  triggered text L1 = true ->
  triggered text L2 = true ->
  exists L,
    detectLanguageByKeywords text = Some L /\
    triggered text L = true /\
    existsb (triggered text) (languagesBefore L) = false /\
    rank L <= rank L1 /\ rank L <= rank L2 /\
    (rank L1 < rank L2 -> L <> L2) /\
    (rank L2 < rank L1 -> L <> L1).
Proof.
  intros _ H1 H2.
  destruct (detectLanguageByKeywords text) as [L|] eqn:Hd.
  - destruct (detected_is_earliest _ _ Hd) as (Hin & Ht & Hb).
    assert (Hle : forall L', triggered text L' = true -> rank L <= rank L').
    { intros L' Ht'. destruct (Nat.le_gt_cases (rank L) (rank L')) as [|Hlt]; [assumption|].
      exfalso. assert (Hex : existsb (triggered text) (languagesBefore L) = true).
      { apply existsb_exists. exists L'. split; [|assumption].
        apply position_firstn; [|exact Hlt].
        eapply triggered_supported; eauto. }
      congruence. }
    exists L. pose proof (Hle _ H1). pose proof (Hle _ H2).
    repeat split; auto; intros Hlt ->; lia.
  - rewrite undetected_iff in Hd. rewrite Hd in H1. discriminate.
Qed.

Lemma earliest_language_wins_witness :
  exists L,
    @detectLanguageByKeywords AsciiBuiltins.builtins
      "in korean, not in english" = Some L /\
    rank L <= rank "korean" /\ rank L <= rank "english" /\ L <> "korean".
Proof.
  destruct (@earliest_language_wins AsciiBuiltins.builtins
              "in korean, not in english" "korean" "english")
    as (L & Hd & _ & _ & Hk & He & _ & Hne);
    [discriminate | reflexivity | reflexivity |].
  exists L. split; [exact Hd|]. split; [exact Hk|]. split; [exact He|].
  apply Hne. vm_compute. lia.
Defined.

(** C9: the matcher returns either no match or a key of the keyword
    table, that is a member of [getSupportedLanguages()]. *)
Theorem detected_language_is_supported `{Builtins} (text : string) :
  detectLanguageByKeywords text = None \/
  exists L, detectLanguageByKeywords text = Some L /\ In L getSupportedLanguages.
Proof.
  destruct (detectLanguageByKeywords text) as [L|] eqn:Hd; [right | now left].
  exists L. split; [reflexivity|]. exact (proj1 (detected_is_earliest _ _ Hd)).
Qed.

End KeywordMatcher.

(** ** The classifier, the inference chain and the translator *)

Module ChainFacts.
Import Constants LanguageDetection Translation TableOrder ScanFacts.

Ltac run := unfold tryCatch, bind, chat_completions_create, elizaLogger_error,
                   elizaLogger_info, writeLog, ret, throw.

Section Chain.
Context `{Builtins}.

(** What one run of the classifier does, by the completion of its
    call. *)
Lemma detectLanguageByPrompt_run (text apiKey : string) (model : option string)
    (api : Api) (w : World) :
  let call := classifierCall text apiKey (modelOrDefault model) in
  let failed e :=
    (Returned None,
     addLog (addCall w call)
       {| level := ERROR; label := "Prompt language detection error:";
          detail := Some e |}) in
  detectLanguageByPrompt text apiKey model api w =
  match api (calls w) call with
  | Thrown e => failed e
  | Returned response =>
      match choices response with
      | [] => failed (TypeError "undefined" "message")
      | choice :: _ =>
          match message_content choice with
          | None => failed (TypeError "null" "trim")
          | Some content =>
              (Returned (Some (toLowerCase (trim content))), addCall w call)
          end
      end
  end.
Proof.
  unfold detectLanguageByPrompt, firstContent, classifierCall. run.
  destruct (api _ _) as [response|e]; [|reflexivity].
  destruct (choices response) as [|choice rest]; [reflexivity|].
  destruct (message_content choice); reflexivity.
Qed.

(** What one run of the translator does, by the completion of its
    call. *)
Lemma translateText_run (text targetLanguage apiKey : string) (model : option string)
    (api : Api) (w : World) :
  let call := translatorCall text targetLanguage apiKey (modelOrDefault model) in
  let failed e :=
    (Thrown (Error ("Error occurred during translation: " ++ message e)),
     addLog (addCall w call)
       {| level := ERROR; label := "Translation error:"; detail := Some e |}) in
  translateText text targetLanguage apiKey model api w =
  match api (calls w) call with
  | Thrown e => failed e
  | Returned response =>
      match choices response with
      | [] => failed (TypeError "undefined" "message")
      | choice :: _ =>
          match message_content choice with
          | None => failed (TypeError "null" "trim")
          | Some content => (Returned (trim content), addCall w call)
          end
      end
  end.
Proof.
  unfold translateText, firstContent, translatorCall. run.
  destruct (api _ _) as [response|e]; [|reflexivity].
  destruct (choices response) as [|choice rest]; [reflexivity|].
  destruct (message_content choice); reflexivity.
Qed.

(** The chain when the matcher finds a language. *)
Lemma detectLanguage_hit (text apiKey L : string) (api : Api) (w : World) :
  detectLanguageByKeywords text = Some L ->
  detectLanguage text apiKey api w = (Returned L, w).
Proof.
  intros Hd. unfold detectLanguage. rewrite Hd. unfold ifTruthy.
  rewrite key_truthy; [reflexivity|].
  exact (proj1 (detected_is_earliest _ _ Hd)).
Qed.

(** The chain when the matcher finds none. *)
Lemma detectLanguage_miss (text apiKey : string) (api : Api) (w : World) :
  detectLanguageByKeywords text = None ->
  detectLanguage text apiKey api w =
  match detectLanguageByPrompt text apiKey None api w with
  | (Returned promptResult, w') => (Returned (orElse promptResult DEFAULT_LANGUAGE), w')
  | (Thrown e, w') => (Thrown e, w')
  end.
Proof.
  intros Hd. unfold detectLanguage. rewrite Hd. unfold ifTruthy at 1. run.
  destruct (detectLanguageByPrompt _ _ _ _ _) as [[[p|]|e] w']; try reflexivity.
  unfold ifTruthy, orElse. destruct (truthy p); reflexivity.
Qed.

Lemma orElse_truthy (s fallback : string) :
  s <> "" -> orElse (Some s) fallback = s.
Proof.
  destruct s; [congruence | reflexivity].
Qed.

End Chain.

(** C3: when the keyword matcher succeeds, [detectLanguage] returns the
    language it found, issues no call to the service, writes nothing, and
    so returns the same value whatever the service would have answered:
    the classifier is not invoked. *)
Theorem keyword_match_skips_classifier `{Builtins} (text apiKey L : string) :
  detectLanguageByKeywords text = Some L ->
  forall (api1 api2 : Api) (w : World),
    detectLanguage text apiKey api1 w = (Returned L, w) /\
    detectLanguage text apiKey api1 w = detectLanguage text apiKey api2 w.
Proof.
  intros Hd api1 api2 w. now rewrite !(detectLanguage_hit _ _ _ _ _ Hd).
Qed.

Lemma keyword_match_skips_classifier_witness :
  @detectLanguage AsciiBuiltins.builtins "translate to Japanese" "key"
    (always (Thrown (Error "offline"))) emptyWorld
  = @detectLanguage AsciiBuiltins.builtins "translate to Japanese" "key"
    (always (Returned (replyWith "korean" []))) emptyWorld.
Proof.
  apply (@keyword_match_skips_classifier AsciiBuiltins.builtins
           "translate to Japanese" "key" "japanese").
  reflexivity.
Defined.

(** C4: [detectLanguage] always returns a language and never throws; when
    the matcher finds no language and the classifier's call throws, or its
    reply normalises (trim, then lower-case) to the empty string, the
    language returned is ["english"]. *)
Theorem detectLanguage_never_fails `{Builtins} (text apiKey : string)
    (api : Api) (w : World) :
  (exists L w', detectLanguage text apiKey api w = (Returned L, w')) /\
  (detectLanguageByKeywords text = None ->
   (exists e, api (calls w) (classifierCall text apiKey "gpt-4o-mini") = Thrown e) \/
   (exists content others,
      api (calls w) (classifierCall text apiKey "gpt-4o-mini")
        = Returned (replyWith content others) /\
      toLowerCase (trim content) = "") ->
   exists w', detectLanguage text apiKey api w = (Returned "english", w')).
Proof.
  split.
  - destruct (detectLanguageByKeywords text) as [L|] eqn:Hd.
    + exists L, w. now apply detectLanguage_hit.
    + rewrite (detectLanguage_miss _ _ _ _ Hd), detectLanguageByPrompt_run.
      cbv zeta. destruct (api _ _) as [response|e]; [|eauto].
      destruct (choices response) as [|choice rest]; [eauto|].
      destruct (message_content choice); eauto.
  - intros Hd Hfail.
    rewrite (detectLanguage_miss _ _ _ _ Hd), detectLanguageByPrompt_run.
    cbv zeta. change (modelOrDefault None) with "gpt-4o-mini".
    destruct Hfail as [[e ->]|(content & others & -> & Hempty)].
    + eauto.
    + simpl. rewrite Hempty. eauto.
Qed.

Lemma detectLanguage_never_fails_witness :
  exists w',
    @detectLanguage AsciiBuiltins.builtins "please translate this" "key"
      (always (Returned (replyWith "   " []))) emptyWorld
    = (Returned "english", w').
Proof.
  apply (@detectLanguage_never_fails AsciiBuiltins.builtins
           "please translate this" "key").
  - reflexivity.
  - right. exists "   ", []. split; reflexivity.
Defined.

(** C5: when the call issued by [detectLanguageByPrompt] fails, or its
    reply is malformed (no first choice, or a first choice without text),
    the failure is caught and logged and the function returns [null]; on
    no input does the function throw. *)
Theorem classifier_failure_is_caught `{Builtins} (text apiKey : string)
    (model : option string) (api : Api) (w : World) :
  let call := classifierCall text apiKey (modelOrDefault model) in
  let outcome := detectLanguageByPrompt text apiKey model api w in
  (forall e, api (calls w) call = Thrown e ->
     outcome =
     (Returned None,
      addLog (addCall w call)
        {| level := ERROR; label := "Prompt language detection error:";
           detail := Some e |})) /\
  (api (calls w) call = Returned {| choices := [] |} ->
     fst outcome = Returned None) /\
  (forall others,
     api (calls w) call
       = Returned {| choices := {| message_content := None |} :: others |} ->
     fst outcome = Returned None) /\
  (exists r w', outcome = (Returned r, w')).
Proof.
  cbv zeta. rewrite detectLanguageByPrompt_run. cbv zeta.
  repeat split.
  - now intros e ->.
  - now intros ->.
  - now intros others ->.
  - destruct (api _ _) as [response|e]; [|eauto].
    destruct (choices response) as [|choice rest]; [eauto|].
    destruct (message_content choice); eauto.
Qed.

Lemma classifier_failure_is_caught_witness :
  fst (@detectLanguageByPrompt AsciiBuiltins.builtins "xyz" "bad-key" None
         (always (Thrown (Error "401 Incorrect API key"))) emptyWorld)
  = Returned None.
Proof.
  rewrite (proj1 (@classifier_failure_is_caught AsciiBuiltins.builtins
                    "xyz" "bad-key" None
                    (always (Thrown (Error "401 Incorrect API key"))) emptyWorld)
             (Error "401 Incorrect API key") eq_refl).
  reflexivity.
Defined.

(** C6, as stated, fails: a reply of blanks normalises to the empty
    string, and [detectLanguageByPrompt] returns that empty string, which
    is not [null]. *)
Lemma empty_reply_is_not_null :
  @toLowerCase AsciiBuiltins.builtins (@trim AsciiBuiltins.builtins "  ") = "" /\
  fst (@detectLanguageByPrompt AsciiBuiltins.builtins "xyz" "key" None
         (always (Returned (replyWith "  " []))) emptyWorld)
    = Returned (Some "") /\
  fst (@detectLanguageByPrompt AsciiBuiltins.builtins "xyz" "key" None
         (always (Returned (replyWith "  " []))) emptyWorld)
    <> Returned None.
Proof.
  repeat split; try reflexivity. discriminate.
Qed.

(** C6, amended: when the reply normalises (trim, then lower-case) to the
    empty string, [detectLanguageByPrompt] returns the empty string, with
    nothing logged; it is [detectLanguage] that treats the empty string as
    it treats [null], and, the matcher having found nothing, returns the
    default language. *)
Theorem empty_reply_yields_empty_string `{Builtins} (text apiKey : string)
    (model : option string) (api : Api) (w : World)
    (content : string) (others : list Choice) :
  let call := classifierCall text apiKey (modelOrDefault model) in
  api (calls w) call = Returned (replyWith content others) ->
  toLowerCase (trim content) = "" ->
  detectLanguageByPrompt text apiKey model api w
    = (Returned (Some ""), addCall w call) /\
  (model = None -> detectLanguageByKeywords text = None ->
   detectLanguage text apiKey api w = (Returned DEFAULT_LANGUAGE, addCall w call)).
Proof.
  cbv zeta. intros Hreply Hempty.
  assert (Hrun : detectLanguageByPrompt text apiKey model api w
                 = (Returned (Some ""),
                    addCall w (classifierCall text apiKey (modelOrDefault model)))).
  { rewrite detectLanguageByPrompt_run. cbv zeta.
    rewrite Hreply. simpl. now rewrite Hempty. }
  split; [exact Hrun|].
  intros -> Hd. rewrite (detectLanguage_miss _ _ _ _ Hd), Hrun. reflexivity.
Qed.

Lemma empty_reply_yields_empty_string_witness :
  @detectLanguageByPrompt AsciiBuiltins.builtins "xyz" "key" None
    (always (Returned (replyWith "  " []))) emptyWorld
  = (Returned (Some ""),
     addCall emptyWorld (classifierCall "xyz" "key" "gpt-4o-mini")).
Proof.
  apply (@empty_reply_yields_empty_string AsciiBuiltins.builtins
           "xyz" "key" None (always (Returned (replyWith "  " []))) emptyWorld
           "  " []); reflexivity.
Defined.

(** C7: when the call issued by [translateText] fails, the translator
    issues no second call; it throws an error whose message is
    ["Error occurred during translation: "] followed by the message of
    the original failure. *)
Theorem translation_failure_is_wrapped `{Builtins}
    (text targetLanguage apiKey : string) (model : option string)
    (api : Api) (w : World) (e : JsError) :
  let call := translatorCall text targetLanguage apiKey (modelOrDefault model) in
  api (calls w) call = Thrown e ->
  exists wrapped w',
    translateText text targetLanguage apiKey model api w = (Thrown wrapped, w') /\
    calls w' = (calls w ++ [call])%list /\
    message wrapped = "Error occurred during translation: " ++ message e /\
    includes (message wrapped) "Error occurred during translation" = true /\
    includes (message wrapped) (message e) = true.
Proof.
  cbv zeta. intros He. rewrite translateText_run. cbv zeta. rewrite He.
  eexists _, _. split; [reflexivity|]. cbn [message calls addLog addCall].
  split; [reflexivity|]. split; [reflexivity|]. split.
  - apply (JsStringFacts.includes_app "" "Error occurred during translation"
             (": " ++ message e)).
  - apply JsStringFacts.includes_suffix.
Qed.

Lemma translation_failure_is_wrapped_witness :
  exists w',
    @translateText AsciiBuiltins.builtins "Hello, world!" "japanese" "key" None
      (always (Thrown (Error "API Error"))) emptyWorld
    = (Thrown (Error "Error occurred during translation: API Error"), w') /\
    length (calls w') = 1.
Proof.
  destruct (@translation_failure_is_wrapped AsciiBuiltins.builtins
              "Hello, world!" "japanese" "key" None
              (always (Thrown (Error "API Error"))) emptyWorld
              (Error "API Error") eq_refl)
    as (wrapped & w' & Hrun & Hcalls & Hmsg & _).
  exists w'. split.
  - rewrite Hrun. destruct wrapped as [m]. simpl in Hmsg. now subst m.
  - now rewrite Hcalls.
Defined.

End ChainFacts.

(** ** The action handler *)

Module HandlerFacts.
Import Constants LanguageDetection Translation TranslateAction TableOrder ChainFacts.

Lemma callIfPresent_returns (callback : option HandlerCallback) :
  neverThrows callback ->
  forall reply api w, exists w', callIfPresent callback reply api w = (Returned tt, w').
Proof.
  intros Hcb reply api w. destruct callback as [f|]; simpl.
  - apply (Hcb f eq_refl).
  - now exists w.
Qed.

Lemma callIfPresent_calls (callback : option HandlerCallback) :
  keepsCalls callback ->
  forall reply api w, calls (snd (callIfPresent callback reply api w)) = calls w.
Proof.
  intros Hcb reply api w. destruct callback as [f|]; simpl.
  - apply (Hcb f eq_refl).
  - reflexivity.
Qed.

Ltac answer Hcb :=
  repeat match goal with
    | |- context [callIfPresent ?cb ?r ?a ?w] =>
        let w' := fresh "w'" in
        destruct (callIfPresent_returns cb Hcb r a w) as [w' ->]
    end.

Ltac enter Hset Hkey :=
  unfold handlerWith; rewrite Hset; unfold ifTruthy at 1; rewrite Hkey;
  run; cbv beta.

Ltac settled :=
  try (eexists; split; [reflexivity | auto]; fail).

(** C10: the handler never resolves with [true] and never rejects, as
    long as the callback itself returns.  It resolves with [false] when
    the API key is missing, when the state cannot be composed, when there
    are fewer than two previous messages, when no agent message with text
    is found, when language detection throws and when translation throws;
    it resolves with [undefined] when translation returns. *)
Theorem handler_resolves_false_or_undefined {Options : Type}
    (detectLanguage : string -> string -> Async string)
    (translateText : string -> string -> string -> Async string)
    (runtime : IAgentRuntime) (message : Memory) (state : option State)
    (options : Options) (callback : option HandlerCallback)
    (api : Api) (w : World) :
  neverThrows callback ->
  let outcome :=
    fst (handlerWith detectLanguage translateText
           runtime message state options callback api w) in
  (outcome = Returned (Bool false) \/ outcome = Returned Undefined) /\
  (ifTruthy (getSetting runtime "OPENAI_API_KEY") (fun _ => false) true = true ->
   outcome = Returned (Bool false)) /\
  (forall apiKey,
     getSetting runtime "OPENAI_API_KEY" = Some apiKey -> truthy apiKey = true ->
     (forall e w1, resolveState runtime message state api w = (Thrown e, w1) ->
        outcome = Returned (Bool false)) /\
     (forall s w1, resolveState runtime message state api w = (Returned s, w1) ->
        let lastAgentMessage :=
          lastMessageOf (agentId runtime) (recentMessagesData s) in
        (length (recentMessagesData s) < 2 -> outcome = Returned (Bool false)) /\
        (guardedText lastAgentMessage = None -> outcome = Returned (Bool false)) /\
        (forall textToTranslate messageContent,
           2 <= length (recentMessagesData s) ->
           guardedText lastAgentMessage = Some textToTranslate ->
           content message = Some messageContent ->
           forall detected w2,
             detectLanguage (orElse (text messageContent) "") apiKey api w1
               = (detected, w2) ->
             match detected with
             | Thrown _ => outcome = Returned (Bool false)
             | Returned targetLanguage =>
                 forall translated w3,
                   translateText textToTranslate targetLanguage apiKey api
                     (addLog w2
                        {| level := INFO;
                           label := "Detected target language: " ++ targetLanguage;
                           detail := None |})
                     = (translated, w3) ->
                   match translated with
                   | Thrown _ => outcome = Returned (Bool false)
                   | Returned _ => outcome = Returned Undefined
                   end
             end))).
Proof.
  intros Hcb. cbv zeta. split; [|split].
  - match goal with |- ?o = _ \/ _ => set (outcome := o) end.
    assert (Hv : exists v, outcome = Returned v /\ (v = Bool false \/ v = Undefined)).
    { subst outcome. unfold handlerWith. unfold ifTruthy at 1. run.
      destruct (getSetting runtime "OPENAI_API_KEY") as [apiKey|];
        [destruct (truthy apiKey)|]; answer Hcb; settled.
      destruct (resolveState _ _ _ _ _) as [[s|e] w1]; answer Hcb; settled.
      destruct (Nat.ltb _ _); answer Hcb; settled.
      destruct (guardedText _); answer Hcb; settled.
      destruct (content message); answer Hcb; settled.
      destruct (detectLanguage _ _ _ _) as [[lang|e] w2]; answer Hcb; settled.
      destruct (translateText _ _ _ _ _) as [[t|e] w3]; answer Hcb; settled. }
    destruct Hv as (v & -> & [->| ->]); auto.
  - unfold handlerWith, ifTruthy. run.
    destruct (getSetting runtime "OPENAI_API_KEY") as [apiKey|];
      [destruct (truthy apiKey)|]; try discriminate; intros _; answer Hcb; auto.
  - intros apiKey Hset Hkey. split.
    + intros e w1 Hs. enter Hset Hkey. rewrite Hs. answer Hcb. reflexivity.
    + intros s w1 Hs. cbv zeta. split; [|split].
      * intros Hlen. apply Nat.ltb_lt in Hlen.
        enter Hset Hkey. rewrite Hs, Hlen. answer Hcb. reflexivity.
      * intros Hnone. enter Hset Hkey. rewrite Hs, Hnone.
        destruct (Nat.ltb _ _); answer Hcb; reflexivity.
      * intros src mc Hlen Hsrc Hmc detected w2 Hdet.
        apply Nat.ltb_ge in Hlen.
        destruct detected as [lang|e].
        -- intros translated w3 Htr.
           destruct translated as [t|e]; enter Hset Hkey;
             rewrite Hs, Hlen, Hsrc, Hmc, Hdet, Htr; answer Hcb; reflexivity.
        -- enter Hset Hkey. rewrite Hs, Hlen, Hsrc, Hmc, Hdet.
           answer Hcb. reflexivity.
Qed.

Lemma recordReply_neverThrows : neverThrows (Some recordReply).
Proof.
  intros f [= <-] reply api w. eexists. reflexivity.
Qed.

Lemma recordReply_keepsCalls : keepsCalls (Some recordReply).
Proof.
  intros f [= <-] reply api w. reflexivity.
Qed.

Lemma handler_resolves_false_or_undefined_witness :
  fst (@handler AsciiBuiltins.builtins unit
         Fixtures.mockRuntime Fixtures.mockMessage (Some Fixtures.mockState) tt
         (Some recordReply)
         (Fixtures.scripted [Thrown (Error "API Error")])
         emptyWorld)
  = Returned (Bool false).
Proof.
  destruct (handler_resolves_false_or_undefined
              (@detectLanguage AsciiBuiltins.builtins)
              (fun text targetLanguage apiKey =>
                 @translateText AsciiBuiltins.builtins text targetLanguage apiKey None)
              Fixtures.mockRuntime Fixtures.mockMessage (Some Fixtures.mockState) tt
              (Some recordReply)
              (Fixtures.scripted [Thrown (Error "API Error")])
              emptyWorld recordReply_neverThrows)
    as (_ & _ & Hpaths).
  destruct (Hpaths "mock-api-key" eq_refl eq_refl) as (_ & Hstate).
  destruct (Hstate Fixtures.mockState emptyWorld eq_refl) as (_ & _ & Hrun).
  specialize (Hrun "Agent message to translate" _ (le_n 2) eq_refl eq_refl _ _ eq_refl).
  cbv beta iota in Hrun.
  exact (Hrun _ _ eq_refl).
Defined.

Ltac replied Hk :=
  repeat match goal with
    | |- context [callIfPresent ?cb ?r ?a ?w] =>
        let Hc := fresh "Hc" in
        let Hcalls := fresh "Hcalls" in
        let w' := fresh "w'" in
        pose proof (callIfPresent_calls cb Hk r a w) as Hcalls;
        destruct (callIfPresent cb r a w) as [[[]|?] w'] eqn:Hc;
        cbn [snd fst calls addLog addCall] in Hcalls |- *
    end;
  repeat match goal with
    | Hcalls : calls _ = _ |- _ => rewrite Hcalls; clear Hcalls
    end;
  cbn [calls addLog addCall]; rewrite <- ?app_assoc; reflexivity.

(** C8: the classifier's answer is not checked against the supported
    languages.  When the matcher finds nothing and the reply normalises to
    a non-empty string r, whatever r is, [detectLanguage] returns r; and
    the handler then issues, after the classifier's call, exactly one
    call, the translator's, whose system message is the translation prompt
    with r embedded as the target language. *)
Theorem classifier_output_reaches_translator `{Builtins} :
  (forall (text apiKey : string) (api : Api) (w : World)
          (content : string) (others : list Choice) (r : string),
     detectLanguageByKeywords text = None ->
     api (calls w) (classifierCall text apiKey "gpt-4o-mini")
       = Returned (replyWith content others) ->
     toLowerCase (trim content) = r -> r <> "" ->
     detectLanguage text apiKey api w
       = (Returned r, addCall w (classifierCall text apiKey "gpt-4o-mini"))) /\
  (forall (Options : Type) (runtime : IAgentRuntime) (message : Memory)
          (state : option State) (options : Options)
          (callback : option HandlerCallback) (api : Api) (w : World)
          (apiKey : string) (s : State) (w1 : World)
          (textToTranslate : string) (messageContent : Content)
          (content : string) (others : list Choice) (r : string),
     keepsCalls callback ->
     getSetting runtime "OPENAI_API_KEY" = Some apiKey -> truthy apiKey = true ->
     resolveState runtime message state api w = (Returned s, w1) ->
     2 <= length (recentMessagesData s) ->
     guardedText (lastMessageOf (agentId runtime) (recentMessagesData s))
       = Some textToTranslate ->
     TranslateAction.content message = Some messageContent ->
     let userInstruction := orElse (text messageContent) "" in
     detectLanguageByKeywords userInstruction = None ->
     api (calls w1) (classifierCall userInstruction apiKey "gpt-4o-mini")
       = Returned (replyWith content others) ->
     toLowerCase (trim content) = r -> r <> "" ->
     calls (snd (handler runtime message state options callback api w))
       = (calls w1 ++
          [ classifierCall userInstruction apiKey "gpt-4o-mini";
            translatorCall textToTranslate r apiKey "gpt-4o-mini" ])%list /\
     map Effects.content
         (messages (call_request
                      (translatorCall textToTranslate r apiKey "gpt-4o-mini")))
       = [ translationPrompt r; textToTranslate ] /\
     translationPrompt r =
       "You are a high-quality translator. Your task is to translate the given text to "
         ++ r ++ "." ++ LF
         ++ "IMPORTANT: Preserve all Markdown formatting. DO NOT add ANY explanations or comments." ++ LF
         ++ "ONLY provide the direct translation of the text. No introductions, no questions, no additional text.").
Proof.
  assert (Hdetect :
    forall text apiKey api w content others r,
      detectLanguageByKeywords text = None ->
      api (calls w) (classifierCall text apiKey "gpt-4o-mini")
        = Returned (replyWith content others) ->
      toLowerCase (trim content) = r -> r <> "" ->
      detectLanguage text apiKey api w
        = (Returned r, addCall w (classifierCall text apiKey "gpt-4o-mini"))).
  { intros text apiKey api w content others r Hd Hreply Hnorm Hr.
    rewrite (detectLanguage_miss _ _ _ _ Hd), detectLanguageByPrompt_run.
    cbv zeta. change (modelOrDefault None) with "gpt-4o-mini".
    rewrite Hreply. cbn [replyWith choices message_content].
    rewrite Hnorm. now rewrite orElse_truthy. }
  split; [exact Hdetect|].
  intros Options runtime message state options callback api w apiKey s w1
         src mc content others r Hk Hset Hkey Hs Hlen Hsrc Hmc instr Hd Hreply Hnorm Hr.
  split; [|split; reflexivity].
  apply Nat.ltb_ge in Hlen.
  unfold handler. enter Hset Hkey.
  rewrite Hs, Hlen, Hsrc, Hmc.
  fold instr. rewrite (Hdetect _ _ _ _ _ _ _ Hd Hreply Hnorm Hr).
  rewrite translateText_run. cbv zeta. change (modelOrDefault None) with "gpt-4o-mini".
  match goal with
  | |- context [api ?h (translatorCall ?a ?b ?c ?d)] =>
      destruct (api h (translatorCall a b c d)) as [response|e]
  end.
  - destruct (choices response) as [|choice rest].
    + replied Hk.
    + destruct (message_content choice); replied Hk.
  - replied Hk.
Qed.

Lemma classifier_output_reaches_translator_witness :
  @detectLanguage AsciiBuiltins.builtins "翻訳してください" "mock-api-key"
    (Fixtures.scripted [ Returned (replyWith " French " []);
                         Returned (replyWith "Bonjour" []) ])
    emptyWorld
  = (Returned "french",
     addCall emptyWorld
       (classifierCall "翻訳してください" "mock-api-key" "gpt-4o-mini")) /\
  calls (snd (@handler AsciiBuiltins.builtins unit
                Fixtures.mockRuntime Fixtures.mockMessage
                (Some Fixtures.mockState) tt (Some recordReply)
                (Fixtures.scripted [ Returned (replyWith " French " []);
                                     Returned (replyWith "Bonjour" []) ])
                emptyWorld))
  = [ classifierCall "翻訳してください" "mock-api-key" "gpt-4o-mini";
      translatorCall "Agent message to translate" "french" "mock-api-key"
        "gpt-4o-mini" ].
Proof.
  destruct (@classifier_output_reaches_translator AsciiBuiltins.builtins)
    as [Hdetect Hhandler].
  split.
  - apply (Hdetect _ _ _ _ " French " []);
      [reflexivity | reflexivity | reflexivity | discriminate].
  - refine (proj1 (Hhandler unit Fixtures.mockRuntime Fixtures.mockMessage
                     (Some Fixtures.mockState) tt (Some recordReply) _ emptyWorld
                     "mock-api-key" Fixtures.mockState emptyWorld
                     "Agent message to translate"
                     {| text := Some "翻訳してください" |}
                     " French " [] "french"
                     recordReply_keepsCalls eq_refl eq_refl eq_refl (le_n 2)
                     eq_refl eq_refl eq_refl eq_refl eq_refl _)).
    discriminate.
Defined.

End HandlerFacts.

(** ** More on the keyword matcher *)

Module MatcherExtras.
Import Constants LanguageDetection TableOrder ScanFacts.

Lemma anyIncluded_false `{Builtins} (lowerText : string) (keywords : list string) :
  anyIncluded lowerText keywords = false <->
  forall K, In K keywords -> includes lowerText (toLowerCase K) = false.
Proof.
  unfold anyIncluded. induction keywords as [|k ks IH]; simpl.
  - split; [intros _ K [] | reflexivity].
  - rewrite orb_false_iff, IH. split.
    + intros [Hk Hks] K [<-|HK]; auto.
    + intros Hall. split; [apply Hall; now left | intros K HK; apply Hall; now right].
Qed.



(** X1: the matcher returns no match exactly when no trigger substring of
    any language of the table occurs in the text (letter case ignored). *)
Theorem no_match_iff_no_trigger `{Builtins} (text : string) :
  detectLanguageByKeywords text = None <->
  forall L ks K, In (L, ks) LANGUAGE_KEYWORDS -> In K ks -> occursIn text K = false.
Proof.
  unfold detectLanguageByKeywords. rewrite scanEntries_None. split.
  - intros Hall L ks K HL HK.
    exact (proj1 (anyIncluded_false _ _) (Hall L ks HL) K HK).
  - intros Hall L ks HL. apply anyIncluded_false. intros K HK.
    exact (Hall L ks K HL HK).
Qed.

(** X2: no trigger substring is shadowed: each trigger of the table, taken
    alone as the text, is detected as the language it is registered under
    (no trigger contains a trigger of an earlier language). *)
Theorem every_trigger_detects_its_language (L K : string) (ks : list string) :
  In (L, ks) LANGUAGE_KEYWORDS -> In K ks ->
  @detectLanguageByKeywords AsciiBuiltins.builtins K = Some L.
Proof.
  intros HL HK. unfold LANGUAGE_KEYWORDS in HL. simpl in HL.
  destruct HL as [HL|[HL|[HL|[]]]]; injection HL as <- <-; simpl in HK;
    repeat (destruct HK as [<-|HK]; [vm_compute; reflexivity|]);
    contradiction.
Qed.

Lemma every_trigger_detects_its_language_witness :
  @detectLanguageByKeywords AsciiBuiltins.builtins "ハングル" = Some "korean".
Proof.
  apply (every_trigger_detects_its_language "korean" "ハングル" (keywordsOf "korean")).
  - simpl; tauto.
  - simpl; tauto.
Defined.



End MatcherExtras.

(** ** Language codes *)

Module CodeFacts.
Import Constants LanguageCodes LanguageDetection TableOrder ScanFacts Observations.

Lemma supported_inv (L : string) :
  In L getSupportedLanguages -> L = "japanese" \/ L = "english" \/ L = "korean".
Proof.
  unfold getSupportedLanguages; simpl. intuition.
Qed.

Lemma unsupported_not_own (L : string) :
  ~ In L getSupportedLanguages -> ownProperty L LANGUAGE_CODES = None.
Proof.
  unfold getSupportedLanguages; simpl. intros Hn.
  destruct (String.eqb_spec L "japanese") as [->|_]; [exfalso; tauto|].
  destruct (String.eqb_spec L "english") as [->|_]; [exfalso; tauto|].
  destruct (String.eqb_spec L "korean") as [->|_]; [exfalso; tauto|].
  reflexivity.
Qed.

(** X4: the code table has the keys of the keyword table, in the same
    order; every supported language, and so every language the matcher can
    return, has its own two-letter code whatever [Object.prototype] holds;
    and two supported languages never share a code. *)
Theorem supported_languages_have_distinct_codes (inherited : string -> bool) :
  sameKeys LANGUAGE_CODES LANGUAGE_KEYWORDS /\
  (forall L, In L getSupportedLanguages ->
     exists code, getLanguageCode inherited L = Str code /\
                  In (L, code) LANGUAGE_CODES /\ String.length code = 2) /\
  (forall `{Builtins} text L, detectLanguageByKeywords text = Some L ->
     exists code, getLanguageCode inherited L = Str code /\
                  In (L, code) LANGUAGE_CODES) /\
  (forall L1 L2, In L1 getSupportedLanguages -> In L2 getSupportedLanguages ->
     getLanguageCode inherited L1 = getLanguageCode inherited L2 -> L1 = L2).
Proof.
  assert (Hcode : forall L, In L getSupportedLanguages ->
            exists code, getLanguageCode inherited L = Str code /\
                         In (L, code) LANGUAGE_CODES /\ String.length code = 2).
  { intros L HL. apply supported_inv in HL as [->|[->| ->]].
    - exists "ja". repeat split; simpl; tauto.
    - exists "en". repeat split; simpl; tauto.
    - exists "ko". repeat split; simpl; tauto. }
  split; [reflexivity|]. split; [exact Hcode|]. split.
  - intros B text L Hd.
    destruct (Hcode L (proj1 (detected_is_earliest _ _ Hd))) as (code & ? & ? & _).
    now exists code.
  - intros L1 L2 H1 H2.
    apply supported_inv in H1 as [->|[->| ->]];
      apply supported_inv in H2 as [->|[->| ->]];
      cbv; intros Heq; try reflexivity; discriminate.
Qed.

Lemma supported_languages_have_distinct_codes_witness :
  getLanguageCode standardPrototype "korean" = Str "ko".
Proof.
  destruct (proj1 (proj2 (supported_languages_have_distinct_codes standardPrototype))
              "korean") as (code & Hcode & Hin & _).
  - simpl; tauto.
  - rewrite Hcode. f_equal.
    simpl in Hin. destruct Hin as [Hin|[Hin|[Hin|[]]]]; now inversion Hin.
Defined.

(** X5: for a name that is not a supported language, [getLanguageCode]
    answers ["en"], the code of the default language, unless the name is a
    member of [Object.prototype]: then it answers that member, which is not
    a string. *)
Theorem unknown_language_code (inherited : string -> bool) (L : string) :
  ~ In L getSupportedLanguages ->
  getLanguageCode inherited L =
    (if inherited L then Inherited L else Str "en") /\
  getLanguageCode inherited DEFAULT_LANGUAGE = Str "en".
Proof.
  intros Hn. split; [|reflexivity].
  unfold getLanguageCode, getProperty. rewrite (unsupported_not_own _ Hn).
  destruct (inherited L); reflexivity.
Qed.

Lemma unknown_language_code_witness :
  getLanguageCode standardPrototype "french" = Str "en" /\
  getLanguageCode standardPrototype "constructor" = Inherited "constructor".
Proof.
  split.
  - apply (unknown_language_code standardPrototype "french").
    unfold getSupportedLanguages; simpl. intuition discriminate.
  - apply (unknown_language_code standardPrototype "constructor").
    unfold getSupportedLanguages; simpl. intuition discriminate.
Defined.

End CodeFacts.

(** ** More on the classifier, the chain and the translator *)

Module ChainExtras.
Import Constants LanguageDetection Translation TableOrder ScanFacts ChainFacts Observations.

Section Chain.
Context `{Builtins}.

Lemma orElse_is_truthy (v : option string) (fallback : string) :
  truthy fallback = true -> truthy (orElse v fallback) = true.
Proof.
  intros Hf. destruct v as [s|]; simpl; [|exact Hf].
  destruct (truthy s) eqn:Hs; [exact Hs | exact Hf].
Qed.

(** The classifier never throws. *)
Lemma detectLanguageByPrompt_returns (text apiKey : string) (model : option string)
    (api : Api) (w : World) :
  exists r w', detectLanguageByPrompt text apiKey model api w = (Returned r, w').
Proof.
  rewrite detectLanguageByPrompt_run. cbv zeta.
  destruct (api _ _) as [response|e]; [|eauto].
  destruct (choices response) as [|choice rest]; [eauto|].
  destruct (message_content choice); eauto.
Qed.

(** The calls and replies a run of the classifier leaves. *)
Lemma detectLanguageByPrompt_world (text apiKey : string) (model : option string)
    (api : Api) (w : World) :
  calls (snd (detectLanguageByPrompt text apiKey model api w))
    = (calls w ++ [classifierCall text apiKey (modelOrDefault model)])%list /\
  replies (snd (detectLanguageByPrompt text apiKey model api w)) = replies w.
Proof.
  rewrite detectLanguageByPrompt_run. cbv zeta.
  destruct (api _ _) as [response|e]; [|split; reflexivity].
  destruct (choices response) as [|choice rest]; [split; reflexivity|].
  destruct (message_content choice); split; reflexivity.
Qed.

(** The calls and replies a run of the translator leaves. *)
Lemma translateText_world (text targetLanguage apiKey : string) (model : option string)
    (api : Api) (w : World) :
  calls (snd (translateText text targetLanguage apiKey model api w))
    = (calls w ++ [translatorCall text targetLanguage apiKey (modelOrDefault model)])%list /\
  replies (snd (translateText text targetLanguage apiKey model api w)) = replies w.
Proof.
  rewrite translateText_run. cbv zeta.
  destruct (api _ _) as [response|e]; [|split; reflexivity].
  destruct (choices response) as [|choice rest]; [split; reflexivity|].
  destruct (message_content choice); split; reflexivity.
Qed.

(** The chain returns a non-empty language. *)
Lemma detectLanguage_returns_truthy (text apiKey : string) (api : Api) (w : World) :
  exists L w', detectLanguage text apiKey api w = (Returned L, w') /\ truthy L = true.
Proof.
  destruct (detectLanguageByKeywords text) as [L|] eqn:Hd.
  - exists L, w. split; [now apply detectLanguage_hit|].
    apply key_truthy. exact (proj1 (detected_is_earliest _ _ Hd)).
  - rewrite (detectLanguage_miss _ _ _ _ Hd).
    destruct (detectLanguageByPrompt_returns text apiKey None api w) as (r & w' & ->).
    eexists _, _. split; [reflexivity|]. now apply orElse_is_truthy.
Qed.

(** The calls and replies a run of the chain leaves. *)
Lemma detectLanguage_world (text apiKey : string) (api : Api) (w : World) :
  calls (snd (detectLanguage text apiKey api w))
    = (calls w ++
       match detectLanguageByKeywords text with
       | Some _ => []
       | None => [classifierCall text apiKey "gpt-4o-mini"]
       end)%list /\
  replies (snd (detectLanguage text apiKey api w)) = replies w.
Proof.
  destruct (detectLanguageByKeywords text) as [L|] eqn:Hd.
  - rewrite (detectLanguage_hit _ _ _ _ _ Hd). simpl. now rewrite app_nil_r.
  - rewrite (detectLanguage_miss _ _ _ _ Hd).
    destruct (detectLanguageByPrompt_world text apiKey None api w) as [Hc Hr].
    destruct (detectLanguageByPrompt_returns text apiKey None api w) as (r & w' & Hrun).
    rewrite Hrun in *. simpl in *. now split.
Qed.

End Chain.

(** X6: every run of [detectLanguageByPrompt] issues exactly one call,
    whose messages are the fixed system prompt and the text unchanged.  A
    reply with text gives the text trimmed then lower-cased, with nothing
    logged, whatever other choices the reply has; [null] is returned only
    together with one error line in the log. *)
Theorem classifier_issues_one_call `{Builtins} (text apiKey : string)
    (model : option string) (api : Api) (w : World) :
  let call := classifierCall text apiKey (modelOrDefault model) in
  let outcome := detectLanguageByPrompt text apiKey model api w in
  calls (snd outcome) = (calls w ++ [call])%list /\
  map Effects.content (messages (call_request call)) = [detectionPrompt; text] /\
  (forall content others,
     api (calls w) call = Returned (replyWith content others) ->
     outcome = (Returned (Some (toLowerCase (trim content))), addCall w call)) /\
  (fst outcome = Returned None ->
   exists e, snd outcome = addLog (addCall w call) (promptErrorLine e)).
Proof.
  cbv zeta. split; [apply detectLanguageByPrompt_world|].
  split; [reflexivity|]. rewrite detectLanguageByPrompt_run. cbv zeta. split.
  - now intros content others ->.
  - destruct (api _ _) as [response|e]; [|intros _; eexists; reflexivity].
    destruct (choices response) as [|choice rest]; [intros _; eexists; reflexivity|].
    destruct (message_content choice); [discriminate | intros _; eexists; reflexivity].
Qed.

Lemma classifier_issues_one_call_witness :
  @detectLanguageByPrompt AsciiBuiltins.builtins "翻訳してください" "key" None
    (always (Returned (replyWith "  Japanese " []))) emptyWorld
  = (Returned (Some "japanese"),
     addCall emptyWorld (classifierCall "翻訳してください" "key" "gpt-4o-mini")).
Proof.
  apply (proj1 (proj2 (proj2
           (@classifier_issues_one_call AsciiBuiltins.builtins
              "翻訳してください" "key" None
              (always (Returned (replyWith "  Japanese " []))) emptyWorld)))
           "  Japanese " []).
  reflexivity.
Defined.

(** X7: the language [detectLanguage] returns is never the empty string,
    on any input and for any behaviour of the service. *)
Theorem detected_language_is_never_empty `{Builtins} (text apiKey : string)
    (api : Api) (w : World) :
  exists L w',
    detectLanguage text apiKey api w = (Returned L, w') /\ L <> "".
Proof.
  destruct (detectLanguage_returns_truthy text apiKey api w) as (L & w' & Hrun & Ht).
  exists L, w'. split; [exact Hrun|]. intros ->. discriminate.
Qed.

(** X8: [detectLanguage] issues no call when the matcher finds a language
    and exactly one, the classifier's with the text unchanged, when it finds
    none; it never issues a second one. *)
Theorem chain_issues_at_most_one_call `{Builtins} (text apiKey : string)
    (api : Api) (w : World) :
  calls (snd (detectLanguage text apiKey api w))
    = (calls w ++
       match detectLanguageByKeywords text with
       | Some _ => []
       | None => [classifierCall text apiKey "gpt-4o-mini"]
       end)%list.
Proof.
  apply detectLanguage_world.
Qed.

(** X9: when the reply has text, [translateText] returns that text
    trimmed, nothing else changed in it, after exactly one call whose
    messages are the translation prompt and the source text unchanged;
    nothing is logged and the other choices of the reply are ignored. *)
Theorem translation_is_trimmed_reply `{Builtins}
    (text targetLanguage apiKey : string) (model : option string)
    (api : Api) (w : World) (content : string) (others : list Choice) :
  let call := translatorCall text targetLanguage apiKey (modelOrDefault model) in
  api (calls w) call = Returned (replyWith content others) ->
  translateText text targetLanguage apiKey model api w
    = (Returned (trim content), addCall w call) /\
  map Effects.content (messages (call_request call))
    = [translationPrompt targetLanguage; text].
Proof.
  cbv zeta. intros Hreply. split; [|reflexivity].
  rewrite translateText_run. cbv zeta. now rewrite Hreply.
Qed.

Lemma translation_is_trimmed_reply_witness :
  @translateText AsciiBuiltins.builtins "Hello, world!" "japanese" "key" None
    (always (Returned (replyWith "  こんにちは、世界！  " []))) emptyWorld
  = (Returned "こんにちは、世界！",
     addCall emptyWorld
       (translatorCall "Hello, world!" "japanese" "key" "gpt-4o-mini")).
Proof.
  apply (@translation_is_trimmed_reply AsciiBuiltins.builtins
           "Hello, world!" "japanese" "key" None
           (always (Returned (replyWith "  こんにちは、世界！  " []))) emptyWorld
           "  こんにちは、世界！  " []).
  reflexivity.
Defined.

(** X10: every run of [translateText] issues exactly one call, success or
    failure.  Whatever it throws is the wrapped failure: a message starting
    with ["Error occurred during translation: "] followed by the message of
    the cause, the cause being logged once; a reply without choices or with
    a [null] text is such a cause. *)
Theorem translator_issues_one_call `{Builtins}
    (text targetLanguage apiKey : string) (model : option string)
    (api : Api) (w : World) :
  let call := translatorCall text targetLanguage apiKey (modelOrDefault model) in
  let outcome := translateText text targetLanguage apiKey model api w in
  calls (snd outcome) = (calls w ++ [call])%list /\
  (forall thrown, fst outcome = Thrown thrown ->
     exists cause,
       message thrown = "Error occurred during translation: " ++ message cause /\
       snd outcome = addLog (addCall w call) (translationErrorLine cause)) /\
  (api (calls w) call = Returned {| choices := [] |} ->
     fst outcome = Thrown (Error ("Error occurred during translation: "
                                    ++ message (TypeError "undefined" "message")))) /\
  (forall others,
     api (calls w) call
       = Returned {| choices := {| message_content := None |} :: others |} ->
     fst outcome = Thrown (Error ("Error occurred during translation: "
                                    ++ message (TypeError "null" "trim")))).
Proof.
  cbv zeta. split; [apply translateText_world|].
  rewrite translateText_run. cbv zeta. split; [|split].
  - intros thrown.
    destruct (api _ _) as [response|e].
    + destruct (choices response) as [|choice rest].
      * intros [= <-]. exists (TypeError "undefined" "message"). split; reflexivity.
      * destruct (message_content choice); [discriminate|].
        intros [= <-]. exists (TypeError "null" "trim"). split; reflexivity.
    + intros [= <-]. exists e. split; reflexivity.
  - now intros ->.
  - now intros others ->.
Qed.

Lemma translator_issues_one_call_witness :
  fst (@translateText AsciiBuiltins.builtins "Hello" "korean" "key" None
         (always (Returned {| choices := [] |})) emptyWorld)
  = Thrown (Error "Error occurred during translation: Cannot read properties of undefined (reading 'message')").
Proof.
  apply (proj1 (proj2 (proj2
           (@translator_issues_one_call AsciiBuiltins.builtins
              "Hello" "korean" "key" None
              (always (Returned {| choices := [] |})) emptyWorld)))).
  reflexivity.
Defined.

End ChainExtras.

(** ** More on the action handler *)

Module HandlerExtras.
Import Constants LanguageDetection Translation TranslateAction TableOrder.
Import ChainFacts HandlerFacts ChainExtras Observations.

Lemma orElse_empty (s : string) : orElse (Some s) "" = s.
Proof.
  destruct s; reflexivity.
Qed.

(** One use of the recording callback. *)
Lemma recordReply_run (reply : string) (api : Api) (w : World) :
  callIfPresent (Some recordReply) reply api w = (Returned tt, addReply w reply).
Proof.
  unfold callIfPresent, recordReply. cbn [text]. now rewrite orElse_empty.
Qed.

Lemma find_first {A : Type} (p : A -> bool) (l : list A) (x : A) :
  find p l = Some x ->
  exists l1 l2, l = (l1 ++ x :: l2)%list /\ p x = true /\
                forall y, In y l1 -> p y = false.
Proof.
  induction l as [|a l IH]; simpl; [discriminate|].
  destruct (p a) eqn:Hpa.
  - intros [= <-]. exists [], l. repeat split; auto. intros y [].
  - intros Hf. destruct (IH Hf) as (l1 & l2 & -> & Hx & Hl1).
    exists (a :: l1), l2. repeat split; auto.
    intros y [<-|Hy]; auto.
Qed.

Lemma find_none_from (agent : string) (l : list Memory) :
  noneFrom agent l ->
  find (fun msg => String.eqb (userId msg) agent) l = None.
Proof.
  induction l as [|a l IH]; intros Hn; simpl; [reflexivity|].
  destruct (String.eqb_spec (userId a) agent) as [He|_].
  - exfalso. apply (Hn a); [now left | exact He].
  - apply IH. intros m Hm. apply Hn. now right.
Qed.

Lemma find_skip (agent : string) (l1 l2 : list Memory) :
  noneFrom agent l1 ->
  find (fun msg => String.eqb (userId msg) agent) (l1 ++ l2)
    = find (fun msg => String.eqb (userId msg) agent) l2.
Proof.
  induction l1 as [|a l1 IH]; intros Hn; simpl; [reflexivity|].
  destruct (String.eqb_spec (userId a) agent) as [He|_].
  - exfalso. apply (Hn a); [now left | exact He].
  - apply IH. intros m Hm. apply Hn. now right.
Qed.

Lemma noneFrom_rev (agent : string) (l : list Memory) :
  noneFrom agent l -> noneFrom agent (rev l).
Proof.
  intros Hn m Hm. apply Hn. now apply in_rev.
Qed.

(** The message found is the last one of the agent. *)
Lemma lastMessageOf_last (agent : string) (before after : list Memory) (m : Memory) :
  userId m = agent -> noneFrom agent after ->
  lastMessageOf agent (before ++ m :: after) = Some m.
Proof.
  intros Hm Hafter. unfold lastMessageOf.
  rewrite rev_app_distr. simpl. rewrite <- app_assoc. simpl.
  rewrite find_skip by now apply noneFrom_rev.
  simpl. rewrite Hm, String.eqb_refl. reflexivity.
Qed.

Lemma lastMessageOf_none (agent : string) (messages : list Memory) :
  noneFrom agent messages -> lastMessageOf agent messages = None.
Proof.
  intros Hn. unfold lastMessageOf. apply find_none_from. now apply noneFrom_rev.
Qed.

Lemma guardedText_truthyText (m : Memory) :
  guardedText (Some m) = truthyText m.
Proof.
  reflexivity.
Qed.

(** X11: [slice().reverse().find(...)] finds the last message written by
    the agent, and nothing when the agent wrote none; the text handed on is
    the text of that last message, earlier messages of the agent playing no
    part. *)
Theorem last_agent_message_is_found (agent : string) (messages : list Memory) :
  (forall before m after,
     messages = (before ++ m :: after)%list ->
     userId m = agent -> noneFrom agent after ->
     lastMessageOf agent messages = Some m /\
     guardedText (lastMessageOf agent messages) = truthyText m) /\
  (noneFrom agent messages -> lastMessageOf agent messages = None) /\
  (forall m, lastMessageOf agent messages = Some m ->
     exists before after,
       messages = (before ++ m :: after)%list /\
       userId m = agent /\ noneFrom agent after).
Proof.
  split; [|split].
  - intros before m after -> Hm Hafter.
    rewrite (lastMessageOf_last _ _ _ _ Hm Hafter). now split.
  - apply lastMessageOf_none.
  - intros m Hfind. unfold lastMessageOf in Hfind.
    apply find_first in Hfind as (l1 & l2 & Hrev & Hm & Hl1).
    exists (rev l2), (rev l1). repeat split.
    + rewrite <- (rev_involutive messages), Hrev, rev_app_distr. simpl.
      now rewrite <- app_assoc.
    + now apply String.eqb_eq.
    + intros y Hy He. apply in_rev in Hy.
      specialize (Hl1 y Hy). apply String.eqb_neq in Hl1. contradiction.
Qed.

Lemma last_agent_message_is_found_witness :
  lastMessageOf "mock-agent-id"
    [ {| userId := "mock-agent-id"; content := Some {| text := Some "Agent message 1" |} |};
      {| userId := "user-id"; content := Some {| text := Some "User message 2" |} |};
      {| userId := "mock-agent-id"; content := Some {| text := Some "Agent message 2" |} |};
      {| userId := "user-id"; content := Some {| text := Some "thanks" |} |} ]
  = Some {| userId := "mock-agent-id";
            content := Some {| text := Some "Agent message 2" |} |}.
Proof.
  refine (proj1 (proj1 (last_agent_message_is_found "mock-agent-id" _)
    [ {| userId := "mock-agent-id"; content := Some {| text := Some "Agent message 1" |} |};
      {| userId := "user-id"; content := Some {| text := Some "User message 2" |} |} ]
    {| userId := "mock-agent-id"; content := Some {| text := Some "Agent message 2" |} |}
    [ {| userId := "user-id"; content := Some {| text := Some "thanks" |} |} ]
    eq_refl eq_refl _)).
  intros m [<-|[]]. discriminate.
Defined.

(** X12: without a configured key (absent or empty) the handler answers
    ["OpenAI API key is not configured"] and does nothing else: no state is
    composed, no call issued, nothing logged, whatever detection and
    translation would do. *)
Theorem missing_key_stops_the_handler {Options : Type}
    (detectLanguage : string -> string -> Async string)
    (translateText : string -> string -> string -> Async string)
    (runtime : IAgentRuntime) (message : Memory) (state : option State)
    (options : Options) (api : Api) (w : World) :
  ifTruthy (getSetting runtime "OPENAI_API_KEY") (fun _ => false) true = true ->
  handlerWith detectLanguage translateText runtime message state options
    (Some recordReply) api w
  = (Returned (Bool false), addReply w "OpenAI API key is not configured").
Proof.
  unfold handlerWith, ifTruthy. run.
  destruct (getSetting runtime "OPENAI_API_KEY") as [apiKey|];
    [destruct (truthy apiKey)|]; try discriminate;
    intros _; now rewrite recordReply_run.
Qed.

Lemma missing_key_stops_the_handler_witness :
  @handler AsciiBuiltins.builtins unit
    {| agentId := "mock-agent-id"; getSetting := fun _ => Some "";
       composeState := fun _ => throw (Error "unused") |}
    Fixtures.mockMessage None tt (Some recordReply)
    (always (Thrown (Error "unused"))) emptyWorld
  = (Returned (Bool false), addReply emptyWorld "OpenAI API key is not configured").
Proof.
  apply missing_key_stops_the_handler. reflexivity.
Defined.

(** X13: with a key and a state, the handler answers
    ["No previous message to translate"] when the state holds fewer than two
    messages, and ["No agent message found to translate"] when it holds two
    or more but none of the agent, or when the last message of the agent has
    no text, even if an earlier one has.  In each case neither detection nor
    translation runs and nothing is logged. *)
Theorem missing_context_is_reported {Options : Type}
    (detectLanguage : string -> string -> Async string)
    (translateText : string -> string -> string -> Async string)
    (runtime : IAgentRuntime) (message : Memory) (state : option State)
    (options : Options) (api : Api) (w : World)
    (apiKey : string) (s : State) (w1 : World) :
  getSetting runtime "OPENAI_API_KEY" = Some apiKey -> truthy apiKey = true ->
  resolveState runtime message state api w = (Returned s, w1) ->
  let outcome :=
    handlerWith detectLanguage translateText runtime message state options
      (Some recordReply) api w in
  (length (recentMessagesData s) < 2 ->
   outcome = (Returned (Bool false), addReply w1 "No previous message to translate")) /\
  (2 <= length (recentMessagesData s) ->
   noneFrom (agentId runtime) (recentMessagesData s) ->
   outcome = (Returned (Bool false), addReply w1 "No agent message found to translate")) /\
  (forall before m after,
     2 <= length (recentMessagesData s) ->
     recentMessagesData s = (before ++ m :: after)%list ->
     userId m = agentId runtime -> noneFrom (agentId runtime) after ->
     truthyText m = None ->
     outcome = (Returned (Bool false), addReply w1 "No agent message found to translate")).
Proof.
  intros Hset Hkey Hs. cbv zeta. split; [|split].
  - intros Hlen. apply Nat.ltb_lt in Hlen.
    enter Hset Hkey. rewrite Hs, Hlen. now rewrite recordReply_run.
  - intros Hlen Hnone. apply Nat.ltb_ge in Hlen.
    enter Hset Hkey. rewrite Hs, Hlen, (lastMessageOf_none _ _ Hnone).
    cbn [guardedText]. now rewrite recordReply_run.
  - intros before m after Hlen Hsplit Hm Hafter Htext. apply Nat.ltb_ge in Hlen.
    enter Hset Hkey. rewrite Hs, Hlen, Hsplit, (lastMessageOf_last _ _ _ _ Hm Hafter).
    rewrite guardedText_truthyText, Htext. now rewrite recordReply_run.
Qed.

Lemma missing_context_is_reported_witness :
  @handler AsciiBuiltins.builtins unit
    Fixtures.mockRuntime Fixtures.mockMessage
    (Some {| recentMessagesData :=
               [ {| userId := "mock-agent-id";
                    content := Some {| text := Some "Agent message 1" |} |};
                 {| userId := "user-id";
                    content := Some {| text := Some "User message" |} |};
                 {| userId := "mock-agent-id";
                    content := Some {| text := Some "" |} |} ] |})
    tt (Some recordReply) (always (Thrown (Error "unused"))) emptyWorld
  = (Returned (Bool false),
     addReply emptyWorld "No agent message found to translate").
Proof.
  unfold handler.
  destruct (missing_context_is_reported
              (@detectLanguage AsciiBuiltins.builtins)
              (fun text targetLanguage apiKey =>
                 @translateText AsciiBuiltins.builtins text targetLanguage apiKey None)
              Fixtures.mockRuntime Fixtures.mockMessage
              (Some {| recentMessagesData :=
                         [ {| userId := "mock-agent-id";
                              content := Some {| text := Some "Agent message 1" |} |};
                           {| userId := "user-id";
                              content := Some {| text := Some "User message" |} |};
                           {| userId := "mock-agent-id";
                              content := Some {| text := Some "" |} |} ] |})
              tt (always (Thrown (Error "unused"))) emptyWorld
              "mock-api-key" _ emptyWorld eq_refl eq_refl eq_refl)
    as (_ & _ & Hlast).
  apply (Hlast
           [ {| userId := "mock-agent-id";
                content := Some {| text := Some "Agent message 1" |} |};
             {| userId := "user-id";
                content := Some {| text := Some "User message" |} |} ]
           {| userId := "mock-agent-id"; content := Some {| text := Some "" |} |}
           []).
  - simpl. lia.
  - reflexivity.
  - reflexivity.
  - intros m [].
  - reflexivity.
Defined.

(** X14: once the key, the state, two messages, a text of the agent and
    the content of the instruction are there, the handler always goes on to
    the translator: detection returns a non-empty language, and the one call
    issued after those of detection is the translator's, for the agent's
    text and that language.  The branch answering
    ["Could not detect target language"] is never taken. *)
Theorem translator_is_always_reached `{Builtins} {Options : Type}
    (runtime : IAgentRuntime) (message : Memory) (state : option State)
    (options : Options) (callback : option HandlerCallback)
    (api : Api) (w : World)
    (apiKey : string) (s : State) (w1 : World)
    (textToTranslate : string) (messageContent : Content) :
  keepsCalls callback ->
  getSetting runtime "OPENAI_API_KEY" = Some apiKey -> truthy apiKey = true ->
  resolveState runtime message state api w = (Returned s, w1) ->
  2 <= length (recentMessagesData s) ->
  guardedText (lastMessageOf (agentId runtime) (recentMessagesData s))
    = Some textToTranslate ->
  TranslateAction.content message = Some messageContent ->
  exists targetLanguage w2,
    detectLanguage (orElse (text messageContent) "") apiKey api w1
      = (Returned targetLanguage, w2) /\
    targetLanguage <> "" /\
    calls (snd (handler runtime message state options callback api w))
      = (calls w2 ++
         [translatorCall textToTranslate targetLanguage apiKey "gpt-4o-mini"])%list.
Proof.
  intros Hk Hset Hkey Hs Hlen Hsrc Hmc. apply Nat.ltb_ge in Hlen.
  destruct (detectLanguage_returns_truthy (orElse (text messageContent) "")
              apiKey api w1) as (lang & w2 & Hdet & Htruthy).
  exists lang, w2. split; [exact Hdet|]. split; [intros ->; discriminate|].
  unfold handler. enter Hset Hkey. rewrite Hs, Hlen, Hsrc, Hmc, Hdet.
  rewrite translateText_run. cbv zeta. change (modelOrDefault None) with "gpt-4o-mini".
  match goal with
  | |- context [api ?h (translatorCall ?a ?b ?c ?d)] =>
      destruct (api h (translatorCall a b c d)) as [response|e]
  end.
  - destruct (choices response) as [|choice rest].
    + replied Hk.
    + destruct (message_content choice); replied Hk.
  - replied Hk.
Qed.

Lemma translator_is_always_reached_witness :
  exists targetLanguage w2,
    @detectLanguage AsciiBuiltins.builtins "翻訳してください" "mock-api-key"
      (always (Thrown (Error "offline"))) emptyWorld
      = (Returned targetLanguage, w2) /\
    calls (snd (@handler AsciiBuiltins.builtins unit
                  Fixtures.mockRuntime Fixtures.mockMessage None tt (Some recordReply)
                  (always (Thrown (Error "offline"))) emptyWorld))
      = (calls w2 ++
         [translatorCall "Agent message to translate" targetLanguage
            "mock-api-key" "gpt-4o-mini"])%list.
Proof.
  destruct (@translator_is_always_reached AsciiBuiltins.builtins unit
              Fixtures.mockRuntime Fixtures.mockMessage None tt (Some recordReply)
              (always (Thrown (Error "offline"))) emptyWorld
              "mock-api-key" Fixtures.mockState emptyWorld
              "Agent message to translate" {| text := Some "翻訳してください" |}
              recordReply_keepsCalls eq_refl eq_refl eq_refl (le_n 2) eq_refl eq_refl)
    as (lang & w2 & Hdet & _ & Hcalls).
  exists lang, w2. split; [exact Hdet | exact Hcalls].
Defined.

(** X15: when the translator's reply has text, the handler hands the
    trimmed text to the callback, once, and resolves with [undefined]; the
    only line logged after detection is the language detected. *)
Theorem translation_is_delivered `{Builtins} {Options : Type}
    (runtime : IAgentRuntime) (message : Memory) (state : option State)
    (options : Options) (api : Api) (w : World)
    (apiKey : string) (s : State) (w1 : World)
    (textToTranslate : string) (messageContent : Content)
    (targetLanguage : string) (w2 : World)
    (content : string) (others : list Choice) :
  getSetting runtime "OPENAI_API_KEY" = Some apiKey -> truthy apiKey = true ->
  resolveState runtime message state api w = (Returned s, w1) ->
  2 <= length (recentMessagesData s) ->
  guardedText (lastMessageOf (agentId runtime) (recentMessagesData s))
    = Some textToTranslate ->
  TranslateAction.content message = Some messageContent ->
  detectLanguage (orElse (text messageContent) "") apiKey api w1
    = (Returned targetLanguage, w2) ->
  let call := translatorCall textToTranslate targetLanguage apiKey "gpt-4o-mini" in
  api (calls w2) call = Returned (replyWith content others) ->
  handler runtime message state options (Some recordReply) api w
  = (Returned Undefined,
     addReply (addCall (addLog w2 (detectedLine targetLanguage)) call)
              (trim content)).
Proof.
  intros Hset Hkey Hs Hlen Hsrc Hmc Hdet call Hreply. apply Nat.ltb_ge in Hlen.
  unfold handler. enter Hset Hkey. rewrite Hs, Hlen, Hsrc, Hmc, Hdet.
  rewrite translateText_run. cbv zeta. change (modelOrDefault None) with "gpt-4o-mini".
  cbn [calls addLog]. fold call. rewrite Hreply.
  cbn [replyWith choices message_content]. now rewrite recordReply_run.
Qed.

Lemma translation_is_delivered_witness :
  replies (snd (@handler AsciiBuiltins.builtins unit
                  Fixtures.mockRuntime
                  {| userId := "user-id";
                     content := Some {| text := Some "translate to Japanese" |} |}
                  (Some Fixtures.mockState) tt (Some recordReply)
                  (always (Returned (replyWith " 翻訳されたメッセージ " [])))
                  emptyWorld))
  = [ "翻訳されたメッセージ" ].
Proof.
  rewrite (@translation_is_delivered AsciiBuiltins.builtins unit
             Fixtures.mockRuntime
             {| userId := "user-id";
                content := Some {| text := Some "translate to Japanese" |} |}
             (Some Fixtures.mockState) tt
             (always (Returned (replyWith " 翻訳されたメッセージ " [])))
             emptyWorld "mock-api-key" Fixtures.mockState emptyWorld
             "Agent message to translate" {| text := Some "translate to Japanese" |}
             "japanese" emptyWorld " 翻訳されたメッセージ " []
             eq_refl eq_refl eq_refl (le_n 2) eq_refl eq_refl eq_refl eq_refl).
  reflexivity.
Defined.

(** X16: when the translator's call fails, the handler resolves with
    [false] and the text handed to the callback carries both prefixes:
    ["Error during translation: Error occurred during translation: "]
    followed by the message of the original failure; the failure is logged
    twice, by the translator and by the handler. *)
Theorem translation_failure_is_surfaced `{Builtins} {Options : Type}
    (runtime : IAgentRuntime) (message : Memory) (state : option State)
    (options : Options) (api : Api) (w : World)
    (apiKey : string) (s : State) (w1 : World)
    (textToTranslate : string) (messageContent : Content)
    (targetLanguage : string) (w2 : World) (e : JsError) :
  getSetting runtime "OPENAI_API_KEY" = Some apiKey -> truthy apiKey = true ->
  resolveState runtime message state api w = (Returned s, w1) ->
  2 <= length (recentMessagesData s) ->
  guardedText (lastMessageOf (agentId runtime) (recentMessagesData s))
    = Some textToTranslate ->
  TranslateAction.content message = Some messageContent ->
  detectLanguage (orElse (text messageContent) "") apiKey api w1
    = (Returned targetLanguage, w2) ->
  let call := translatorCall textToTranslate targetLanguage apiKey "gpt-4o-mini" in
  api (calls w2) call = Thrown e ->
  handler runtime message state options (Some recordReply) api w
  = (Returned (Bool false),
     addReply
       (addLog
          (addLog (addCall (addLog w2 (detectedLine targetLanguage)) call)
                  (translationErrorLine e))
          (actionErrorLine
             (Error ("Error occurred during translation: " ++ Effects.message e))))
       ("Error during translation: Error occurred during translation: "
          ++ Effects.message e)).
Proof.
  intros Hset Hkey Hs Hlen Hsrc Hmc Hdet call Hfail. apply Nat.ltb_ge in Hlen.
  unfold handler. enter Hset Hkey. rewrite Hs, Hlen, Hsrc, Hmc, Hdet.
  rewrite translateText_run. cbv zeta. change (modelOrDefault None) with "gpt-4o-mini".
  cbn [calls addLog]. fold call. rewrite Hfail.
  now rewrite recordReply_run.
Qed.

Lemma translation_failure_is_surfaced_witness :
  replies (snd (@handler AsciiBuiltins.builtins unit
                  Fixtures.mockRuntime
                  {| userId := "user-id";
                     content := Some {| text := Some "translate to Japanese" |} |}
                  (Some Fixtures.mockState) tt (Some recordReply)
                  (always (Thrown (Error "API Error")))
                  emptyWorld))
  = [ "Error during translation: Error occurred during translation: API Error" ].
Proof.
  rewrite (@translation_failure_is_surfaced AsciiBuiltins.builtins unit
             Fixtures.mockRuntime
             {| userId := "user-id";
                content := Some {| text := Some "translate to Japanese" |} |}
             (Some Fixtures.mockState) tt
             (always (Thrown (Error "API Error")))
             emptyWorld "mock-api-key" Fixtures.mockState emptyWorld
             "Agent message to translate" {| text := Some "translate to Japanese" |}
             "japanese" emptyWorld (Error "API Error")
             eq_refl eq_refl eq_refl (le_n 2) eq_refl eq_refl eq_refl eq_refl).
  reflexivity.
Defined.

Lemma resolveState_replies (runtime : IAgentRuntime) (message : Memory)
    (state : option State) :
  keepsReplies (composeState runtime message) ->
  keepsReplies (resolveState runtime message state).
Proof.
  intros Hkeep api w. destruct state as [s|]; simpl; [reflexivity | apply Hkeep].
Qed.

Ltac told :=
  rewrite ?recordReply_run; cbn [snd replies addReply addLog addCall];
  eexists;
  repeat match goal with
    | Hr : replies _ = _ |- _ => rewrite Hr; clear Hr
    end;
  reflexivity.

(** X17: with a callback that records what it is given, every run of the
    handler hands it exactly one text, on the success path and on every
    failure path alike, provided composing the state does not use the
    callback. *)
Theorem handler_answers_exactly_once `{Builtins} {Options : Type}
    (runtime : IAgentRuntime) (message : Memory) (state : option State)
    (options : Options) (api : Api) (w : World) :
  keepsReplies (composeState runtime message) ->
  exists reply,
    replies (snd (handler runtime message state options (Some recordReply) api w))
      = (replies w ++ [reply])%list.
Proof.
  intros Hkeep. unfold handler, handlerWith. unfold ifTruthy at 1. run.
  destruct (getSetting runtime "OPENAI_API_KEY") as [apiKey|];
    [destruct (truthy apiKey)|]; try told.
  pose proof (resolveState_replies runtime message state Hkeep api w) as Hr1.
  destruct (resolveState runtime message state api w) as [[s|e] w1];
    cbn [snd] in Hr1; [|told].
  destruct (Nat.ltb _ _); [told|].
  destruct (guardedText _) as [src|]; [|told].
  destruct (TranslateAction.content message) as [mc|]; [|told].
  pose proof (proj2 (detectLanguage_world (orElse (text mc) "") apiKey api w1)) as Hr2.
  destruct (detectLanguage (orElse (text mc) "") apiKey api w1) as [[lang|e] w2];
    cbn [snd] in Hr2; [|told].
  match goal with
  | |- context [translateText ?a ?b ?c None ?p ?v] =>
      pose proof (proj2 (translateText_world a b c None p v)) as Hr3;
      destruct (translateText a b c None p v) as [[t|e] w3]
  end; cbn [snd replies addLog] in Hr3; told.
Qed.

Lemma handler_answers_exactly_once_witness :
  exists reply,
    replies (snd (@handler AsciiBuiltins.builtins unit
                    Fixtures.mockRuntime Fixtures.mockMessage None tt
                    (Some recordReply)
                    (Fixtures.scripted [ Returned (replyWith "korean" []) ])
                    emptyWorld))
      = [reply].
Proof.
  apply (@handler_answers_exactly_once AsciiBuiltins.builtins unit
           Fixtures.mockRuntime Fixtures.mockMessage None tt
           (Fixtures.scripted [ Returned (replyWith "korean" []) ]) emptyWorld).
  intros api w. reflexivity.
Defined.

(** X18: a state is composed only when none is passed, and after the key
    is found: the run then continues exactly as a run given the composed
    state.  When composing throws, the handler resolves with [false] and the
    callback is told ["Error during translation: "] followed by the message
    of that failure, nothing having been detected or translated. *)
Theorem absent_state_is_composed {Options : Type}
    (detectLanguage : string -> string -> Async string)
    (translateText : string -> string -> string -> Async string)
    (runtime : IAgentRuntime) (message : Memory)
    (options : Options) (api : Api) (w : World) (apiKey : string) :
  getSetting runtime "OPENAI_API_KEY" = Some apiKey -> truthy apiKey = true ->
  (forall callback s w1,
     composeState runtime message api w = (Returned s, w1) ->
     handlerWith detectLanguage translateText runtime message None options
       callback api w
     = handlerWith detectLanguage translateText runtime message (Some s) options
         callback api w1) /\
  (forall e w1,
     composeState runtime message api w = (Thrown e, w1) ->
     handlerWith detectLanguage translateText runtime message None options
       (Some recordReply) api w
     = (Returned (Bool false),
        addReply (addLog w1 (actionErrorLine e))
                 ("Error during translation: " ++ Effects.message e))).
Proof.
  intros Hset Hkey. split.
  - intros callback s w1 Hc. unfold handlerWith, ifTruthy.
    rewrite Hset, Hkey. cbn [resolveState]. run. now rewrite Hc.
  - intros e w1 Hc. enter Hset Hkey. cbn [resolveState]. rewrite Hc.
    now rewrite recordReply_run.
Qed.

Lemma absent_state_is_composed_witness :
  @handler AsciiBuiltins.builtins unit
    {| agentId := "mock-agent-id"; getSetting := fun _ => Some "mock-api-key";
       composeState := fun _ => throw (Error "database is down") |}
    Fixtures.mockMessage None tt (Some recordReply)
    (always (Thrown (Error "unused"))) emptyWorld
  = (Returned (Bool false),
     addReply (addLog emptyWorld (actionErrorLine (Error "database is down")))
              "Error during translation: database is down").
Proof.
  unfold handler.
  apply (proj2 (absent_state_is_composed
                  (@detectLanguage AsciiBuiltins.builtins)
                  (fun text targetLanguage apiKey =>
                     @translateText AsciiBuiltins.builtins text targetLanguage
                       apiKey None)
                  {| agentId := "mock-agent-id";
                     getSetting := fun _ => Some "mock-api-key";
                     composeState := fun _ => throw (Error "database is down") |}
                  Fixtures.mockMessage tt
                  (always (Thrown (Error "unused"))) emptyWorld
                  "mock-api-key" eq_refl eq_refl)
               (Error "database is down") emptyWorld).
  reflexivity.
Defined.

End HandlerExtras.
